(** * Neural Nexus: the generation client, the session state machine and the
    ingest boundary, embedded from the TypeScript sources.

    - [Constants]      src/constants.ts
    - [Types]          src/types.ts
    - [GeminiService]  src/services/geminiService.ts
    - [Session]        src/components/Session.tsx (the Session component)
    - [Ingest]         src/components/Session.tsx (the Ingest component, second part)
    - [App]            src/App.tsx

    Numbers.  JavaScript numbers are IEEE doubles.  Every number the modelled
    code computes with is an integer far below 2^53 (the stability starts at 50
    and moves by the literals 10, -5, 15 = 10 * 1.5 and -15; scores have the
    schema type INTEGER), and on those double arithmetic is integer
    arithmetic, so numbers are [Z].

    Strings.  A JavaScript string is a sequence of UTF-16 code units.  Text
    whose code units the code looks at (its [length], its white space in
    [trim], a cut by [substring]) is a list of code units, [UTF16.text]: the
    pasted text, the answer to an open question, the result of a file reader
    and the content of an input.
    Strings that the code only stores, compares, tests for emptiness or
    matches against ASCII literals are [string].

    React.  A component function is run once per render; the handlers it
    defines close over the state of that render.  A handler is therefore a
    function of the rendered state [snap].  State setters called with a value
    overwrite the field; setters called with an updater function
    ([setStats (prev => ...)]) read the field of the state current when the
    update is applied.  An [async] handler is split at its [await]: the part
    before it runs on the click, the part after it runs when the promise
    settles, still closing over [snap], on the state [cur] current then. *)

From Stdlib Require Import ZArith Lia.
From stdpp Require Import base decidable option list strings pretty gmap.

Local Open Scope Z_scope.

(* ===================================================================== *)
(** ** src/constants.ts *)

Module Constants.

Definition STABILITY_THRESHOLD_WIN : Z := 90.
Definition STABILITY_PENALTY : Z := 15.
Definition STABILITY_BONUS : Z := 10.

End Constants.

(* ===================================================================== *)
(** ** UTF-16 text *)

Module UTF16.

(** A text is the list of its code units. *)
Abbreviation text := (list N) (only parsing).

(** The text of an ASCII literal: one code unit per character. *)
Definition of_ascii (s : string) : list N :=
  Stdlib.Strings.Ascii.N_of_ascii <$> Stdlib.Strings.String.list_ascii_of_string s.

(** The code units [String.prototype.trim] strips: the WhiteSpace of
    ECMAScript (TAB, VT, FF, U+FEFF and the space separators U+0020, U+00A0,
    U+1680, U+2000 to U+200A, U+202F, U+205F, U+3000) and its LineTerminator
    (LF, CR, U+2028, U+2029).  All of them are single code units. *)
Definition is_white_space (u : N) : bool :=
  ((9 <=? u) && (u <=? 13) || (u =? 32) || (u =? 160) || (u =? 5760)
   || (8192 <=? u) && (u <=? 8202) || (u =? 8232) || (u =? 8233)
   || (u =? 8239) || (u =? 8287) || (u =? 12288) || (u =? 65279))%N.

Fixpoint trimStart (t : list N) : list N :=
  match t with
  | u :: t' => if is_white_space u then trimStart t' else t
  | [] => []
  end.

(** [String.prototype.trim] *)
Definition trim (t : list N) : list N :=
  reverse (trimStart (reverse (trimStart t))).

(** A text is falsy exactly when it is empty. *)
Definition truthy (t : list N) : bool :=
  match t with [] => false | _ :: _ => true end.

End UTF16.

(* ===================================================================== *)
(** ** src/types.ts *)

Module Types.

Inductive GameState : Set :=
| INIT | INGESTION | PROCESSING | SESSION_ACTIVE | SESSION_SUMMARY.

Inductive QuestionType : Set :=
| CONCEPT_CHECK | SOCRATIC_DEFENSE | COUNTER_THEORY.

#[global] Instance QuestionType_eq_dec : EqDecision QuestionType.
Proof. solve_decision. Defined.

Record StudyConcept : Set := mkStudyConcept {
  c_id : string;
  c_term : string;
  c_definition : string;
  c_analogy : string;
  c_mastered : bool
}.

Record DeepDiveContent : Set := mkDeepDiveContent {
  theoreticalUnderpinnings : string;
  realWorldApplication : string;
  interdisciplinaryConnection : string
}.

Record ChallengeResult : Set := mkChallengeResult {
  cr_passed : bool;
  cr_score : Z;
  cr_feedback : string
}.

(** [options?] and [correctOptionIndex?] are optional members. *)
Record GameQuestion : Set := mkGameQuestion {
  q_id : string;
  q_type : QuestionType;
  q_question : string;
  q_options : option (list string);
  q_correctOptionIndex : option Z;
  q_explanation : string;
  q_difficulty : Z
}.

Record StudySessionData : Set := mkStudySessionData {
  title : string;
  summary : string;
  concepts : list StudyConcept;
  questions : list GameQuestion
}.

Record PlayerStats : Set := mkPlayerStats {
  syncedNodes : Z;
  stability : Z;
  streak : Z
}.

(** The literals ['text'] and ['file']. *)
Inductive InputKind : Set := kind_text | kind_file.

Record InputContext : Set := mkInputContext {
  ic_type : InputKind;
  ic_content : UTF16.text;
  ic_mimeType : option string;
  ic_fileName : option string
}.

(** The anonymous result type of [evaluateSocraticAnswer]. *)
Record SocraticEvaluation : Set := mkSocraticEvaluation {
  se_score : Z;
  se_feedback : string
}.

#[global] Instance StudyConcept_eq_dec : EqDecision StudyConcept.
Proof. solve_decision. Defined.

End Types.

(* ===================================================================== *)
(** ** JavaScript truthiness of the values the code tests *)

Module JS.

(** A string is falsy exactly when it is empty. *)
Definition truthy_string (s : string) : bool :=
  match s with EmptyString => false | String _ _ => true end.

(** [undefined] and [null] are falsy. *)
Definition truthy (o : option string) : bool :=
  match o with None => false | Some s => truthy_string s end.

(** [String.prototype.endsWith], used with ASCII suffixes. *)
Definition endsWith (s suffix : string) : bool :=
  let n := String.length s in
  let k := String.length suffix in
  if (k <=? n)%nat
  then bool_decide (Stdlib.Strings.String.substring (n - k) k s = suffix)
  else false.

End JS.

(* ===================================================================== *)
(** ** src/services/geminiService.ts *)

Module GeminiService.
Import Types.

(** What the external service does with one request.  The service and the
    runtime's [JSON.parse] are not part of the repository; a reply is
    described by what the code observes of it: whether the promise of
    [ai.models.generateContent] rejects, whether [response.text] is falsy
    ([undefined] or the empty string), and, for a non-empty text, whether
    [JSON.parse] throws on it or which value it returns.  The parsed value is
    read at the TypeScript type the operation declares for it. *)
Inductive Reply (T : Type) : Type :=
| Rejected                 (* generateContent rejects: network, quota, ... *)
| NoText                   (* response.text is undefined or empty *)
| BadJson (raw : string)   (* non-empty text on which JSON.parse throws *)
| Json (v : T).            (* non-empty text, JSON.parse returns v *)
Arguments Rejected {T}.
Arguments NoText {T}.
Arguments BadJson {T} raw.
Arguments Json {T} v.

(** The reply to a request without [responseMimeType]: the text is used as
    it is. *)
Inductive TextReply : Type :=
| TextRejected
| TextOf (t : option string).

(** What a rejected promise carries. *)
Inductive Failure : Set :=
| ApiError                    (* thrown by the SDK call *)
| SyntaxError                 (* thrown by JSON.parse *)
| TypeError                   (* a property read on undefined *)
| Error (message : string).   (* new Error(message) *)

(** How a promise settles. *)
Inductive Settled (T : Type) : Type :=
| Fulfilled (v : T)
| Failed (e : Failure).
Arguments Fulfilled {T} v.
Arguments Failed {T} e.

Definition is_fulfilled {T} (r : Settled T) : bool :=
  match r with Fulfilled _ => true | Failed _ => false end.

(** The service gave no usable payload: the text is empty or does not parse. *)
Definition no_usable_payload {T} (r : Reply T) : bool :=
  match r with NoText | BadJson _ => true | Rejected | Json _ => false end.

Definition text_no_usable_payload (r : TextReply) : bool :=
  match r with TextOf t => negb (JS.truthy t) | TextRejected => false end.

Inductive Part : Set :=
| inlineData (mimeType : string) (data : UTF16.text)
| textPart (t : UTF16.text).

Definition CONTEXT_BUDGET : nat := Z.to_nat 30000.

(** The code unit of [\n]. *)
Definition newline : UTF16.text := [10%N].

(** [input.content.substring(0, 30000)], the first 30000 code units of the
    content (all of it when it has fewer), and the template around it. *)
Definition contextPart (input : InputContext) (textPrompt : UTF16.text) : Part :=
  textPart (UTF16.of_ascii "Context: "
            ++ take CONTEXT_BUDGET (ic_content input)
            ++ newline ++ newline ++ textPrompt).

(** [getParts]: a file with a (truthy) mime type is sent inline, anything else
    as text cut to 30000 code units. *)
Definition getParts (input : InputContext) (textPrompt : UTF16.text) : list Part :=
  match ic_type input, ic_mimeType input with
  | kind_file, Some m =>
      if JS.truthy_string m
      then [inlineData m (ic_content input); textPart textPrompt]
      else [contextPart input textPrompt]
  | _, _ => [contextPart input textPrompt]
  end.

(** [data.concepts.map(c => ({...c, mastered: false}))] *)
Definition unmaster (c : StudyConcept) : StudyConcept :=
  {| c_id := c_id c; c_term := c_term c; c_definition := c_definition c;
     c_analogy := c_analogy c; c_mastered := false |}.

(** [generateGameSession]: the [catch] logs and rethrows what the [try] block
    threw. *)
Definition generateGameSession (reply : Reply StudySessionData)
  : Settled StudySessionData :=
  match reply with
  | Rejected => Failed ApiError
  | Json data =>
      Fulfilled {| title := title data; summary := summary data;
                   concepts := unmaster <$> concepts data;
                   questions := questions data |}
  | BadJson _ => Failed SyntaxError
  | NoText => Failed (Error "No response text generated")
  end.

Definition generateDeepDive (reply : Reply DeepDiveContent)
  : Settled DeepDiveContent :=
  match reply with
  | Rejected => Failed ApiError
  | Json v => Fulfilled v
  | BadJson _ => Failed SyntaxError
  | NoText => Failed (Error "Deep dive generation failed")
  end.

(** [return response.text || "Explain this concept in your own words."] *)
Definition generateConceptChallenge (reply : TextReply) : Settled string :=
  match reply with
  | TextRejected => Failed ApiError
  | TextOf t =>
      Fulfilled (match t with
                 | Some s => if JS.truthy_string s then s
                             else "Explain this concept in your own words."
                 | None => "Explain this concept in your own words."
                 end)
  end.

Definition evaluateChallenge (reply : Reply ChallengeResult)
  : Settled ChallengeResult :=
  match reply with
  | Rejected => Failed ApiError
  | Json v => Fulfilled v
  | BadJson _ => Failed SyntaxError
  | NoText => Failed (Error "Evaluation failed")
  end.

(** The last statement is a [return], not a [throw]. *)
Definition evaluateSocraticAnswer (reply : Reply SocraticEvaluation)
  : Settled SocraticEvaluation :=
  match reply with
  | Rejected => Failed ApiError
  | Json v => Fulfilled v
  | BadJson _ => Failed SyntaxError
  | NoText => Fulfilled {| se_score := 0; se_feedback := "Analysis failed." |}
  end.

End GeminiService.

(* ===================================================================== *)
(** ** src/components/Session.tsx: the Session component *)

Module Session.
Import Types Constants GeminiService.

Inductive ViewMode : Set := DATA_CORE | SIMULATION.
Inductive ConceptMode : Set := OVERVIEW | DEEP_DIVE | SYNC_PROTOCOL.
Inductive MobileView : Set := LIST | FOCUS.
Inductive FeedbackType : Set := success | error | neutral.

(** An element of [history]. *)
Record Sample : Set := mkSample { h_time : Z; h_stability : Z }.

Record ChallengeFeedback : Set := mkChallengeFeedback {
  cf_passed : bool; cf_msg : string
}.

Record Feedback : Set := mkFeedback { f_type : FeedbackType; f_msg : string }.

#[global] Instance ViewMode_eq_dec : EqDecision ViewMode.
Proof. solve_decision. Defined.
#[global] Instance ConceptMode_eq_dec : EqDecision ConceptMode.
Proof. solve_decision. Defined.
#[global] Instance FeedbackType_eq_dec : EqDecision FeedbackType.
Proof. solve_decision. Defined.
#[global] Instance Feedback_eq_dec : EqDecision Feedback.
Proof. solve_decision. Defined.

(** The props; [onExit] belongs to [App]. *)
Record SessionProps : Set := mkSessionProps {
  data : StudySessionData;
  context : InputContext;
  apiKey : string
}.

(** The component's [useState] cells, in the order of the source. *)
Record State : Type := mkState {
  viewMode : ViewMode;
  concepts : list StudyConcept;
  mobileView : MobileView;
  activeConceptId : option string;
  conceptMode : ConceptMode;
  deepDiveData : gmap string DeepDiveContent;
  loadingDeepDive : bool;
  challengeQ : option string;
  challengeAnswer : string;
  challengeFeedback : option ChallengeFeedback;
  loadingChallenge : bool;
  currentQIndex : nat;
  stats : PlayerStats;
  history : list Sample;
  selectedOption : option Z;
  socraticInput : UTF16.text;
  feedback : option Feedback;
  isEvaluating : bool;
  quizComplete : bool
}.

(** The initial values of the [useState] calls. *)
Definition init (props : SessionProps) : State :=
  {| viewMode := DATA_CORE;
     concepts := Types.concepts (data props);
     mobileView := LIST;
     activeConceptId := None;
     conceptMode := OVERVIEW;
     deepDiveData := ∅;
     loadingDeepDive := false;
     challengeQ := None;
     challengeAnswer := "";
     challengeFeedback := None;
     loadingChallenge := false;
     currentQIndex := 0%nat;
     stats := {| syncedNodes := 0; stability := 50; streak := 0 |};
     history := [ {| h_time := 0; h_stability := 50 |} ];
     selectedOption := None;
     socraticInput := [];
     feedback := None;
     isEvaluating := false;
     quizComplete := false |}.

(** The state setters, one per cell: [mkState] takes the cells in the order of
    the record. *)
Definition setViewMode (v : ViewMode) (s : State) : State :=
  mkState v (concepts s) (mobileView s) (activeConceptId s) (conceptMode s)
    (deepDiveData s) (loadingDeepDive s) (challengeQ s) (challengeAnswer s)
    (challengeFeedback s) (loadingChallenge s) (currentQIndex s) (stats s)
    (history s) (selectedOption s) (socraticInput s) (feedback s)
    (isEvaluating s) (quizComplete s).

Definition setConcepts (v : list StudyConcept) (s : State) : State :=
  mkState (viewMode s) v (mobileView s) (activeConceptId s) (conceptMode s)
    (deepDiveData s) (loadingDeepDive s) (challengeQ s) (challengeAnswer s)
    (challengeFeedback s) (loadingChallenge s) (currentQIndex s) (stats s)
    (history s) (selectedOption s) (socraticInput s) (feedback s)
    (isEvaluating s) (quizComplete s).

Definition setMobileView (v : MobileView) (s : State) : State :=
  mkState (viewMode s) (concepts s) v (activeConceptId s) (conceptMode s)
    (deepDiveData s) (loadingDeepDive s) (challengeQ s) (challengeAnswer s)
    (challengeFeedback s) (loadingChallenge s) (currentQIndex s) (stats s)
    (history s) (selectedOption s) (socraticInput s) (feedback s)
    (isEvaluating s) (quizComplete s).

Definition setActiveConceptId (v : option string) (s : State) : State :=
  mkState (viewMode s) (concepts s) (mobileView s) v (conceptMode s)
    (deepDiveData s) (loadingDeepDive s) (challengeQ s) (challengeAnswer s)
    (challengeFeedback s) (loadingChallenge s) (currentQIndex s) (stats s)
    (history s) (selectedOption s) (socraticInput s) (feedback s)
    (isEvaluating s) (quizComplete s).

Definition setConceptMode (v : ConceptMode) (s : State) : State :=
  mkState (viewMode s) (concepts s) (mobileView s) (activeConceptId s) v
    (deepDiveData s) (loadingDeepDive s) (challengeQ s) (challengeAnswer s)
    (challengeFeedback s) (loadingChallenge s) (currentQIndex s) (stats s)
    (history s) (selectedOption s) (socraticInput s) (feedback s)
    (isEvaluating s) (quizComplete s).

Definition setDeepDiveData (v : gmap string DeepDiveContent) (s : State) : State :=
  mkState (viewMode s) (concepts s) (mobileView s) (activeConceptId s)
    (conceptMode s) v (loadingDeepDive s) (challengeQ s) (challengeAnswer s)
    (challengeFeedback s) (loadingChallenge s) (currentQIndex s) (stats s)
    (history s) (selectedOption s) (socraticInput s) (feedback s)
    (isEvaluating s) (quizComplete s).

Definition setLoadingDeepDive (v : bool) (s : State) : State :=
  mkState (viewMode s) (concepts s) (mobileView s) (activeConceptId s)
    (conceptMode s) (deepDiveData s) v (challengeQ s) (challengeAnswer s)
    (challengeFeedback s) (loadingChallenge s) (currentQIndex s) (stats s)
    (history s) (selectedOption s) (socraticInput s) (feedback s)
    (isEvaluating s) (quizComplete s).

Definition setChallengeQ (v : option string) (s : State) : State :=
  mkState (viewMode s) (concepts s) (mobileView s) (activeConceptId s)
    (conceptMode s) (deepDiveData s) (loadingDeepDive s) v (challengeAnswer
    s) (challengeFeedback s) (loadingChallenge s) (currentQIndex s) (stats
    s) (history s) (selectedOption s) (socraticInput s) (feedback s)
    (isEvaluating s) (quizComplete s).

Definition setChallengeAnswer (v : string) (s : State) : State :=
  mkState (viewMode s) (concepts s) (mobileView s) (activeConceptId s)
    (conceptMode s) (deepDiveData s) (loadingDeepDive s) (challengeQ s) v
    (challengeFeedback s) (loadingChallenge s) (currentQIndex s) (stats s)
    (history s) (selectedOption s) (socraticInput s) (feedback s)
    (isEvaluating s) (quizComplete s).

Definition setChallengeFeedback (v : option ChallengeFeedback) (s : State) : State :=
  mkState (viewMode s) (concepts s) (mobileView s) (activeConceptId s)
    (conceptMode s) (deepDiveData s) (loadingDeepDive s) (challengeQ s)
    (challengeAnswer s) v (loadingChallenge s) (currentQIndex s) (stats s)
    (history s) (selectedOption s) (socraticInput s) (feedback s)
    (isEvaluating s) (quizComplete s).

Definition setLoadingChallenge (v : bool) (s : State) : State :=
  mkState (viewMode s) (concepts s) (mobileView s) (activeConceptId s)
    (conceptMode s) (deepDiveData s) (loadingDeepDive s) (challengeQ s)
    (challengeAnswer s) (challengeFeedback s) v (currentQIndex s) (stats s)
    (history s) (selectedOption s) (socraticInput s) (feedback s)
    (isEvaluating s) (quizComplete s).

Definition setCurrentQIndex (v : nat) (s : State) : State :=
  mkState (viewMode s) (concepts s) (mobileView s) (activeConceptId s)
    (conceptMode s) (deepDiveData s) (loadingDeepDive s) (challengeQ s)
    (challengeAnswer s) (challengeFeedback s) (loadingChallenge s) v (stats
    s) (history s) (selectedOption s) (socraticInput s) (feedback s)
    (isEvaluating s) (quizComplete s).

Definition setStats (v : PlayerStats) (s : State) : State :=
  mkState (viewMode s) (concepts s) (mobileView s) (activeConceptId s)
    (conceptMode s) (deepDiveData s) (loadingDeepDive s) (challengeQ s)
    (challengeAnswer s) (challengeFeedback s) (loadingChallenge s)
    (currentQIndex s) v (history s) (selectedOption s) (socraticInput s)
    (feedback s) (isEvaluating s) (quizComplete s).

Definition setHistory (v : list Sample) (s : State) : State :=
  mkState (viewMode s) (concepts s) (mobileView s) (activeConceptId s)
    (conceptMode s) (deepDiveData s) (loadingDeepDive s) (challengeQ s)
    (challengeAnswer s) (challengeFeedback s) (loadingChallenge s)
    (currentQIndex s) (stats s) v (selectedOption s) (socraticInput s)
    (feedback s) (isEvaluating s) (quizComplete s).

Definition setSelectedOption (v : option Z) (s : State) : State :=
  mkState (viewMode s) (concepts s) (mobileView s) (activeConceptId s)
    (conceptMode s) (deepDiveData s) (loadingDeepDive s) (challengeQ s)
    (challengeAnswer s) (challengeFeedback s) (loadingChallenge s)
    (currentQIndex s) (stats s) (history s) v (socraticInput s) (feedback s)
    (isEvaluating s) (quizComplete s).

Definition setSocraticInput (v : UTF16.text) (s : State) : State :=
  mkState (viewMode s) (concepts s) (mobileView s) (activeConceptId s)
    (conceptMode s) (deepDiveData s) (loadingDeepDive s) (challengeQ s)
    (challengeAnswer s) (challengeFeedback s) (loadingChallenge s)
    (currentQIndex s) (stats s) (history s) (selectedOption s) v (feedback
    s) (isEvaluating s) (quizComplete s).

Definition setFeedback (v : option Feedback) (s : State) : State :=
  mkState (viewMode s) (concepts s) (mobileView s) (activeConceptId s)
    (conceptMode s) (deepDiveData s) (loadingDeepDive s) (challengeQ s)
    (challengeAnswer s) (challengeFeedback s) (loadingChallenge s)
    (currentQIndex s) (stats s) (history s) (selectedOption s)
    (socraticInput s) v (isEvaluating s) (quizComplete s).

Definition setIsEvaluating (v : bool) (s : State) : State :=
  mkState (viewMode s) (concepts s) (mobileView s) (activeConceptId s)
    (conceptMode s) (deepDiveData s) (loadingDeepDive s) (challengeQ s)
    (challengeAnswer s) (challengeFeedback s) (loadingChallenge s)
    (currentQIndex s) (stats s) (history s) (selectedOption s)
    (socraticInput s) (feedback s) v (quizComplete s).

Definition setQuizComplete (v : bool) (s : State) : State :=
  mkState (viewMode s) (concepts s) (mobileView s) (activeConceptId s)
    (conceptMode s) (deepDiveData s) (loadingDeepDive s) (challengeQ s)
    (challengeAnswer s) (challengeFeedback s) (loadingChallenge s)
    (currentQIndex s) (stats s) (history s) (selectedOption s)
    (socraticInput s) (feedback s) (isEvaluating s) v.

(** [data.questions[currentQIndex]]; [undefined] past the end. *)
Definition currentQ (props : SessionProps) (s : State) : option GameQuestion :=
  questions (data props) !! currentQIndex s.

(** [concepts.find(c => c.id === activeConceptId)]: the first match; no id is
    [=== null]. *)
Definition activeConcept (s : State) : option StudyConcept :=
  match activeConceptId s with
  | Some i => List.find (λ c, bool_decide (c_id c = i)) (concepts s)
  | None => None
  end.

(** *** Helpers *)

(** [updateStability].  [history] is the array the handler's render closed
    over; [prev] is the [stats] current when the updater runs. *)
Definition updateStability (history_snap : list Sample) (delta : Z) (cur : State)
  : State :=
  let prev := stats cur in
  let newStability := Z.max 0 (Z.min 100 (stability prev + delta)) in
  let appended :=
    history_snap ++ [ {| h_time := Z.of_nat (length history_snap);
                         h_stability := newStability |} ] in
  let newHistory :=
    if (20 <? length appended)%nat then tail appended else appended in
  setStats {| syncedNodes := syncedNodes prev;
              stability := newStability;
              streak := if 0 <? delta then streak prev + 1 else 0 |}
           (setHistory newHistory cur).

Definition handleMobileBack (s : State) : State := setMobileView LIST s.

(** *** Data core interactions *)

Definition handleConceptSelect (id : string) (s : State) : State :=
  setMobileView FOCUS
    (setChallengeFeedback None
       (setChallengeAnswer ""
          (setChallengeQ None
             (setConceptMode OVERVIEW (setActiveConceptId (Some id) s))))).

(** The names every object literal inherits from [Object.prototype]: reading
    [deepDiveData[id]] for one of them yields a (truthy) inherited value when
    the object has no own entry. *)
Definition Object_prototype_keys : list string :=
  [ "constructor"; "__defineGetter__"; "__defineSetter__"; "hasOwnProperty";
    "__lookupGetter__"; "__lookupSetter__"; "isPrototypeOf";
    "propertyIsEnumerable"; "toString"; "valueOf"; "__proto__";
    "toLocaleString" ].

(** The test [if (deepDiveData[activeConcept.id])]: an own entry is an
    object, hence truthy. *)
Definition deepDiveData_truthy (m : gmap string DeepDiveContent) (id : string)
  : bool :=
  match m !! id with
  | Some _ => true
  | None => bool_decide (id ∈ Object_prototype_keys)
  end.

(** A call that has been issued and has not settled, with what the rest of
    the handler closes over. *)
Inductive Pending : Type :=
| PendingDeepDive (ac : StudyConcept)
| PendingChallenge (ac : StudyConcept)
| PendingEvaluateChallenge (ac : StudyConcept) (question answer : string)
    (history_snap : list Sample)
| PendingSocratic (question : string) (answer : UTF16.text)
    (history_snap : list Sample).

(** [fetchDeepDive], up to the [await]. *)
Definition fetchDeepDive (s : State) : State * option Pending :=
  match activeConcept s with
  | None => (s, None)
  | Some ac =>
      if deepDiveData_truthy (deepDiveData s) (c_id ac)
      then (setConceptMode DEEP_DIVE s, None)
      else (setLoadingDeepDive true s, Some (PendingDeepDive ac))
  end.

(** [fetchDeepDive], from the [await] on. *)
Definition fetchDeepDive_settled (ac : StudyConcept)
    (r : Settled DeepDiveContent) (cur : State) : State :=
  match r with
  | Fulfilled d =>
      setLoadingDeepDive false
        (setConceptMode DEEP_DIVE
           (setDeepDiveData (<[c_id ac := d]> (deepDiveData cur)) cur))
  | Failed _ => setLoadingDeepDive false cur
  end.

Definition initSyncProtocol (s : State) : State * option Pending :=
  match activeConcept s with
  | None => (s, None)
  | Some ac =>
      (setChallengeFeedback None
         (setChallengeAnswer ""
            (setChallengeQ None
               (setConceptMode SYNC_PROTOCOL (setLoadingChallenge true s)))),
       Some (PendingChallenge ac))
  end.

Definition initSyncProtocol_settled (r : Settled string) (cur : State) : State :=
  match r with
  | Fulfilled q => setLoadingChallenge false (setChallengeQ (Some q) cur)
  | Failed _ =>
      setLoadingChallenge false
        (setChallengeQ (Some "Error generating protocol. Try again.") cur)
  end.

(** [submitSyncChallenge], up to the [await]. *)
Definition submitSyncChallenge (s : State) : State * option Pending :=
  match activeConcept s, challengeQ s with
  | Some ac, Some q =>
      if JS.truthy_string q && JS.truthy_string (challengeAnswer s)
      then (setLoadingChallenge true s,
            Some (PendingEvaluateChallenge ac q (challengeAnswer s) (history s)))
      else (s, None)
  | _, _ => (s, None)
  end.

(** [{...c, mastered: true}] *)
Definition master (c : StudyConcept) : StudyConcept :=
  {| c_id := c_id c; c_term := c_term c; c_definition := c_definition c;
     c_analogy := c_analogy c; c_mastered := true |}.

(** [submitSyncChallenge], from the [await] on.  The last [setStats] updater
    runs after the one of [updateStability]. *)
Definition submitSyncChallenge_settled (ac : StudyConcept)
    (history_snap : list Sample) (r : Settled ChallengeResult) (cur : State)
  : State :=
  match r with
  | Fulfilled result =>
      let s1 :=
        setChallengeFeedback
          (Some {| cf_passed := cr_passed result; cf_msg := cr_feedback result |})
          cur in
      let s2 :=
        if cr_passed result then
          let s3 :=
            setConcepts
              ((λ c, if bool_decide (c_id c = c_id ac) then master c else c)
                 <$> concepts s1) s1 in
          let s4 := updateStability history_snap 10 s3 in
          setStats {| syncedNodes := syncedNodes (stats s4) + 1;
                      stability := stability (stats s4);
                      streak := streak (stats s4) |} s4
        else updateStability history_snap (-5) s1 in
      setLoadingChallenge false s2
  | Failed _ => setLoadingChallenge false cur
  end.

(** *** Quiz interactions *)

(** [handleChoiceSubmit].  With no current question the read of
    [currentQ.correctOptionIndex] throws before any setter is called. *)
Definition handleChoiceSubmit (props : SessionProps) (s : State) : State :=
  match selectedOption s with
  | None => s
  | Some sel =>
      match currentQ props s with
      | None => s
      | Some q =>
          if bool_decide (Some sel = q_correctOptionIndex q)
          then updateStability (history s) STABILITY_BONUS
                 (setFeedback
                    (Some {| f_type := success; f_msg := q_explanation q |}) s)
          else updateStability (history s) (- STABILITY_PENALTY)
                 (setFeedback
                    (Some {| f_type := error;
                             f_msg := "Incorrect. " +:+ q_explanation q |}) s)
      end
  end.

(** [handleSocraticSubmit], up to the [await].  With no current question the
    read of [currentQ.question] throws inside the [try]. *)
Definition handleSocraticSubmit (props : SessionProps) (s : State)
  : State * option Pending :=
  if UTF16.truthy (UTF16.trim (socraticInput s)) then
    match currentQ props s with
    | Some q =>
        (setIsEvaluating true s,
         Some (PendingSocratic (q_question q) (socraticInput s) (history s)))
    | None =>
        (setIsEvaluating false
           (setFeedback
              (Some {| f_type := error;
                       f_msg := "Communication with evaluation core failed." |})
              s),
         None)
    end
  else (s, None).

(** [STABILITY_BONUS * 1.5]: 10 * 1.5 is the double 15. *)
Definition SOCRATIC_BONUS : Z := STABILITY_BONUS * 3 / 2.

(** [handleSocraticSubmit], from the [await] on. *)
Definition handleSocraticSubmit_settled (history_snap : list Sample)
    (r : Settled SocraticEvaluation) (cur : State) : State :=
  match r with
  | Fulfilled evaluation =>
      let passed := 70 <=? se_score evaluation in
      setIsEvaluating false
        (updateStability history_snap
           (if passed then SOCRATIC_BONUS else - STABILITY_PENALTY)
           (setFeedback
              (Some {| f_type := if passed then success else error;
                       f_msg := "[EVALUATION]: " +:+ se_feedback evaluation
                                  +:+ " (Score: " +:+ pretty (se_score evaluation)
                                  +:+ "/100)" |})
              cur))
  | Failed _ =>
      setIsEvaluating false
        (setFeedback
           (Some {| f_type := error;
                    f_msg := "Communication with evaluation core failed." |})
           cur)
  end.

Definition nextQuestion (props : SessionProps) (s : State) : State :=
  if Z.of_nat (currentQIndex s) <? Z.of_nat (length (questions (data props))) - 1
  then setFeedback None
         (setSocraticInput []
            (setSelectedOption None (setCurrentQIndex (currentQIndex s + 1)%nat s)))
  else setQuizComplete true s.

(** *** The component as a transition system *)

(** The reply of the service to one of the four calls of the component. *)
Inductive ServiceReply : Type :=
| DeepDiveReply (r : Reply DeepDiveContent)
| ChallengeReply (r : TextReply)
| EvaluationReply (r : Reply ChallengeResult)
| SocraticReply (r : Reply SocraticEvaluation).

(** The rest of the handler that awaits [p], run on the reply [r]; [None]
    when [r] is not a reply to the call of [p]. *)
Definition settle (p : Pending) (r : ServiceReply) (cur : State) : option State :=
  match p, r with
  | PendingDeepDive ac, DeepDiveReply r =>
      Some (fetchDeepDive_settled ac (generateDeepDive r) cur)
  | PendingChallenge _, ChallengeReply r =>
      Some (initSyncProtocol_settled (generateConceptChallenge r) cur)
  | PendingEvaluateChallenge ac _ _ h, EvaluationReply r =>
      Some (submitSyncChallenge_settled ac h (evaluateChallenge r) cur)
  | PendingSocratic _ _ h, SocraticReply r =>
      Some (handleSocraticSubmit_settled h (evaluateSocraticAnswer r) cur)
  | _, _ => None
  end.

(** What can happen to a mounted component: the [onClick] and [onChange]
    handlers of the markup, and the settling of an outstanding call. *)
Inductive Event : Type :=
| SelectConcept (id : string)
| ShowOverview
| RequestDeepDive
| InitSync
| EditChallengeAnswer (v : string)
| SubmitSync
| SelectOption (idx : Z)
| EditSocraticInput (v : UTF16.text)
| SubmitAnswer
| Continue
| ShowDataCore
| ShowSimulation
| ReturnToCore
| MobileBack
| MobileList
| Settle (i : nat) (r : ServiceReply).

(** The state, the calls in flight, and every call issued so far (newest
    last). *)
Record Config : Type := mkConfig {
  st : State;
  pending : list Pending;
  issued : list Pending
}.

Definition start (props : SessionProps) : Config :=
  {| st := init props; pending := []; issued := [] |}.

Definition only (s : State) (c : Config) : Config :=
  {| st := s; pending := pending c; issued := issued c |}.

Definition launch (r : State * option Pending) (c : Config) : Config :=
  match r with
  | (s, Some p) =>
      {| st := s; pending := pending c ++ [p]; issued := issued c ++ [p] |}
  | (s, None) => only s c
  end.

Definition step (props : SessionProps) (c : Config) (e : Event) : Config :=
  let s := st c in
  match e with
  | SelectConcept id => only (handleConceptSelect id s) c
  | ShowOverview => only (setConceptMode OVERVIEW s) c
  | RequestDeepDive => launch (fetchDeepDive s) c
  | InitSync => launch (initSyncProtocol s) c
  | EditChallengeAnswer v => only (setChallengeAnswer v s) c
  | SubmitSync => launch (submitSyncChallenge s) c
  | SelectOption idx =>
      match feedback s with
      | None => only (setSelectedOption (Some idx) s) c
      | Some _ => c
      end
  | EditSocraticInput v => only (setSocraticInput v s) c
  | SubmitAnswer =>
      match currentQ props s with
      | Some q =>
          if bool_decide (q_type q = SOCRATIC_DEFENSE)
          then launch (handleSocraticSubmit props s) c
          else only (handleChoiceSubmit props s) c
      | None => c
      end
  | Continue => only (nextQuestion props s) c
  | ShowDataCore => only (setMobileView LIST (setViewMode DATA_CORE s)) c
  | ShowSimulation => only (setMobileView FOCUS (setViewMode SIMULATION s)) c
  | ReturnToCore => only (setViewMode DATA_CORE s) c
  | MobileBack => only (handleMobileBack s) c
  | MobileList => only (setMobileView LIST s) c
  | Settle i r =>
      match pending c !! i with
      | Some p =>
          match settle p r s with
          | Some s' => {| st := s'; pending := delete i (pending c);
                          issued := issued c |}
          | None => c
          end
      | None => c
      end
  end.

Definition run (props : SessionProps) (c : Config) (es : list Event) : Config :=
  foldl (step props) c es.

(** The [disabled] attributes and the conditional rendering of the markup:
    whether the control behind [e] is on the page and enabled in the render of
    [c].  The transition system above does not depend on it; the invariants
    below hold for every sequence of events, offered or not. *)
Definition passed_feedback (s : State) : bool :=
  match challengeFeedback s with Some f => cf_passed f | None => false end.

Definition sync_panel (s : State) : bool :=
  bool_decide (viewMode s = DATA_CORE) && bool_decide (is_Some (activeConcept s))
  && bool_decide (conceptMode s = SYNC_PROTOCOL)
  && negb (loadingChallenge s && negb (JS.truthy (challengeQ s))).

Definition quiz_panel (props : SessionProps) (s : State) : bool :=
  bool_decide (viewMode s = SIMULATION) && negb (quizComplete s)
  && bool_decide (is_Some (currentQ props s)).

Definition is_socratic (props : SessionProps) (s : State) : bool :=
  match currentQ props s with
  | Some q => bool_decide (q_type q = SOCRATIC_DEFENSE)
  | None => false
  end.

Definition offered (props : SessionProps) (c : Config) (e : Event) : bool :=
  let s := st c in
  match e with
  | SelectConcept id =>
      bool_decide (viewMode s = DATA_CORE)
      && bool_decide (id ∈ c_id <$> concepts s)
  | ShowOverview | RequestDeepDive =>
      bool_decide (viewMode s = DATA_CORE) && bool_decide (is_Some (activeConcept s))
  | InitSync =>
      bool_decide (viewMode s = DATA_CORE)
      && match activeConcept s with Some ac => negb (c_mastered ac) | None => false end
  | EditChallengeAnswer _ =>
      sync_panel s && negb (loadingChallenge s || passed_feedback s)
  | SubmitSync =>
      sync_panel s
      && negb (negb (JS.truthy_string (challengeAnswer s))
               || loadingChallenge s || passed_feedback s)
  | SelectOption idx =>
      quiz_panel props s && negb (is_socratic props s)
      && bool_decide (feedback s = None)
      && match currentQ props s with
         | Some q =>
             match q_options q with
             | Some os => bool_decide (0 <= idx < Z.of_nat (length os))
             | None => false
             end
         | None => false
         end
  | EditSocraticInput _ =>
      quiz_panel props s && is_socratic props s
      && negb (bool_decide (is_Some (feedback s)) || isEvaluating s)
  | SubmitAnswer =>
      quiz_panel props s && bool_decide (feedback s = None)
      && negb (if is_socratic props s
               then negb (UTF16.truthy (socraticInput s))
               else bool_decide (selectedOption s = None))
  | Continue => quiz_panel props s && bool_decide (is_Some (feedback s))
  | ShowDataCore | ShowSimulation => true
  | ReturnToCore => bool_decide (viewMode s = SIMULATION) && quizComplete s
  | MobileBack => true
  | MobileList =>
      bool_decide (viewMode s = DATA_CORE) && bool_decide (activeConcept s = None)
  | Settle i r =>
      match pending c !! i with
      | Some p => bool_decide (is_Some (settle p r s))
      | None => false
      end
  end.

(** Every event of [es] is offered in the configuration it happens in. *)
Fixpoint all_offered (props : SessionProps) (c : Config) (es : list Event) : bool :=
  match es with
  | [] => true
  | e :: es' => offered props c e && all_offered props (step props c e) es'
  end.

End Session.

(* ===================================================================== *)
(** ** src/components/Session.tsx, second part: the Ingest component *)

Module Ingest.
Import Types.

(** What the handlers read of a DOM [File]. *)
Record File : Set := mkFile { file_name : string; file_type : string }.

(** The value of the [loadedFile] cell; [data] is [split(',')[1]], which is
    [undefined] when the data URL has no comma. *)
Record LoadedFile : Set := mkLoadedFile {
  lf_name : string; lf_type : string; lf_data : option UTF16.text
}.

Record State : Set := mkState {
  text : UTF16.text;
  dragActive : bool;
  loadedFile : option LoadedFile
}.

Definition init : State := {| text := []; dragActive := false; loadedFile := None |}.

Definition setText (v : UTF16.text) (s : State) : State :=
  {| text := v; dragActive := dragActive s; loadedFile := loadedFile s |}.
Definition setDragActive (v : bool) (s : State) : State :=
  {| text := text s; dragActive := v; loadedFile := loadedFile s |}.
Definition setLoadedFile (v : option LoadedFile) (s : State) : State :=
  {| text := text s; dragActive := dragActive s; loadedFile := v |}.

(** What [handleFile] asks of the browser besides the state updates. *)
Inductive Effect : Set :=
| readAsText (f : File)
| readAsDataURL (f : File)
| alert (message : string).

(** The first branch of [handleFile]. *)
Definition is_text_file (f : File) : bool :=
  bool_decide (file_type f = "text/plain")
  || JS.endsWith (file_name f) ".md" || JS.endsWith (file_name f) ".txt".

Definition is_pdf_file (f : File) : bool :=
  bool_decide (file_type f = "application/pdf").

(** [handleFile], up to the readers' [onload]. *)
Definition handleFile (f : File) (s : State) : State * Effect :=
  let s0 := setText [] s in
  if is_text_file f then (setLoadedFile None s0, readAsText f)
  else if is_pdf_file f then (s0, readAsDataURL f)
  else (s0, alert "Currently supported formats: PDF, TXT, MD").

(** [reader.onload] of the text branch; [result] is [e.target?.result]. *)
Definition text_onload (result : option UTF16.text) (cur : State) : State :=
  match result with
  | Some r => if UTF16.truthy r then setText r cur else cur
  | None => cur
  end.

(** The code unit of the comma. *)
Definition COMMA : N := 44.

(** [s.split(',')[1]]: the piece between the first and the second comma. *)
Fixpoint until_comma (s : list N) : list N :=
  match s with
  | u :: s' => if bool_decide (u = COMMA) then [] else u :: until_comma s'
  | [] => []
  end.

Fixpoint split_comma_1 (s : list N) : option (list N) :=
  match s with
  | u :: s' =>
      if bool_decide (u = COMMA) then Some (until_comma s') else split_comma_1 s'
  | [] => None
  end.

(** [reader.onload] of the PDF branch. *)
Definition pdf_onload (f : File) (result : option UTF16.text) (cur : State) : State :=
  match result with
  | Some r =>
      if UTF16.truthy r
      then setLoadedFile
             (Some {| lf_name := file_name f; lf_type := file_type f;
                      lf_data := split_comma_1 r |}) cur
      else cur
  | None => cur
  end.

(** [text.length] is the number of code units of the text. *)
Definition isReady (s : State) : bool :=
  (50 <? length (text s))%nat || bool_decide (is_Some (loadedFile s)).

End Ingest.

(* ===================================================================== *)
(** ** src/App.tsx *)

Module App.
Import Types GeminiService.

Record State : Set := mkState {
  gameState : GameState;
  apiKey : string;
  inputContext : option InputContext;
  sessionData : option StudySessionData;
  error : option string
}.

Definition init : State :=
  {| gameState := INIT; apiKey := ""; inputContext := None;
     sessionData := None; error := None |}.

Definition ENV_KEY_MISSING : string :=
  "CRITICAL SYSTEM FAILURE: ENV_KEY_MISSING. "
  +:+ "Please configure the environment correctly.".

Definition CONSTRUCTION_FAILED : string :=
  "Neural construction failed. The artifact may be too complex "
  +:+ "or the connection was interrupted.".

(** The mount effect; [env_key] is [process.env.API_KEY]. *)
Definition mount (env_key : option string) (s : State) : State :=
  if JS.truthy env_key
  then {| gameState := INGESTION; apiKey := default "" env_key;
          inputContext := inputContext s; sessionData := sessionData s;
          error := error s |}
  else {| gameState := gameState s; apiKey := apiKey s;
          inputContext := inputContext s; sessionData := sessionData s;
          error := Some ENV_KEY_MISSING |}.

(** [handleStartProcessing], up to the [await]. *)
Definition handleStartProcessing (input : InputContext) (s : State) : State :=
  {| gameState := PROCESSING; apiKey := apiKey s; inputContext := Some input;
     sessionData := sessionData s; error := None |}.

(** [handleStartProcessing], from the [await] on. *)
Definition handleStartProcessing_settled (r : Settled StudySessionData)
    (cur : State) : State :=
  match r with
  | Fulfilled d =>
      {| gameState := SESSION_ACTIVE; apiKey := apiKey cur;
         inputContext := inputContext cur; sessionData := Some d;
         error := error cur |}
  | Failed _ =>
      {| gameState := INGESTION; apiKey := apiKey cur;
         inputContext := inputContext cur; sessionData := sessionData cur;
         error := Some CONSTRUCTION_FAILED |}
  end.

(** The props [App] renders [Session] with, when it renders it. *)
Definition session_props (s : State) : option Session.SessionProps :=
  match gameState s, sessionData s, inputContext s with
  | SESSION_ACTIVE, Some d, Some input =>
      Some {| Session.data := d; Session.context := input;
              Session.apiKey := apiKey s |}
  | _, _, _ => None
  end.

End App.

(* ===================================================================== *)
(** ** The words of the specification *)

Module Spec.

(** [clamp(x, lo, hi)]: [x] brought into the interval from [lo] to [hi]. *)
Definition clamp (x lo hi : Z) : Z :=
  if x <? lo then lo else if hi <? x then hi else x.

(** The update of the history as the specification words it: one sample
    [{time: len(history), stability'}] is appended to the buffer, and the
    oldest entry is dropped when the buffer would exceed 20 entries. *)
Definition append_sample (history : list Session.Sample) (stability' : Z)
  : list Session.Sample :=
  let appended :=
    history ++ [ {| Session.h_time := Z.of_nat (length history);
                    Session.h_stability := stability' |} ] in
  if (20 <? length appended)%nat then tail appended else appended.

End Spec.

(* ===================================================================== *)
(** ** Observations on configurations, used to state the properties *)

Module Observe.
Import Types GeminiService Session.

(** The history array a pending continuation closes over, if it uses one. *)
Definition pending_history (p : Pending) : list Sample :=
  match p with
  | PendingEvaluateChallenge _ _ _ h | PendingSocratic _ _ h => h
  | PendingDeepDive _ | PendingChallenge _ => []
  end.

(** The history in the state and in every closure has at most 20 samples. *)
Definition history_bounded (c : Config) : Prop :=
  (length (history (st c)) <= 20)%nat
  ∧ Forall (λ p, (length (pending_history p) <= 20)%nat) (pending c).

(** [p] is a call of [generateDeepDive] for the concept with this id. *)
Definition is_deep_dive_for (id : string) (p : Pending) : bool :=
  match p with
  | PendingDeepDive ac => bool_decide (c_id ac = id)
  | _ => false
  end.

(** The number of deep-dive calls for [id] among the calls [l]. *)
Definition deep_dive_calls (id : string) (l : list Pending) : nat :=
  length (List.filter (is_deep_dive_for id) l).

(** [r] is a reply to the call of [p]. *)
Definition answers (p : Pending) (r : ServiceReply) : bool :=
  match p, r with
  | PendingDeepDive _, DeepDiveReply _
  | PendingChallenge _, ChallengeReply _
  | PendingEvaluateChallenge _ _ _ _, EvaluationReply _
  | PendingSocratic _ _ _, SocraticReply _ => true
  | _, _ => false
  end.

(** The promise of the operation behind [r] rejects. *)
Definition rejects (r : ServiceReply) : bool :=
  match r with
  | DeepDiveReply r => negb (is_fulfilled (generateDeepDive r))
  | ChallengeReply r => negb (is_fulfilled (generateConceptChallenge r))
  | EvaluationReply r => negb (is_fulfilled (evaluateChallenge r))
  | SocraticReply r => negb (is_fulfilled (evaluateSocraticAnswer r))
  end.

(** The external call behind [r] failed in the sense of the specification:
    it threw, or it returned no usable payload. *)
Definition call_failed (r : ServiceReply) : bool :=
  match r with
  | DeepDiveReply Rejected | EvaluationReply Rejected
  | SocraticReply Rejected | ChallengeReply TextRejected => true
  | DeepDiveReply r => no_usable_payload r
  | EvaluationReply r => no_usable_payload r
  | SocraticReply r => no_usable_payload r
  | ChallengeReply r => text_no_usable_payload r
  end.

(** Two concepts that differ at most in the [mastered] flag. *)
Definition same_card (c c' : StudyConcept) : Prop :=
  c_id c = c_id c' ∧ c_term c = c_term c'
  ∧ c_definition c = c_definition c' ∧ c_analogy c = c_analogy c'.

(** The part of the state the specification calls the progress of a session. *)
Definition progress (s : State)
  : PlayerStats * list Sample * list StudyConcept * gmap string DeepDiveContent :=
  (stats s, history s, concepts s, deepDiveData s).

End Observe.

(* ===================================================================== *)
(** ** Concrete sessions, used in examples *)

Module Fixtures.
Import Types GeminiService.

Definition concept_a : StudyConcept :=
  {| c_id := "c1"; c_term := "Entanglement";
     c_definition := "A correlation of quantum states.";
     c_analogy := "A pair of gloves in two boxes."; c_mastered := false |}.

Definition concept_b : StudyConcept :=
  {| c_id := "c2"; c_term := "Superposition";
     c_definition := "A sum of basis states.";
     c_analogy := "A spinning coin."; c_mastered := true |}.

Definition check_1 : GameQuestion :=
  {| q_id := "q1"; q_type := CONCEPT_CHECK;
     q_question := "Which statement describes entanglement?";
     q_options := Some ["A"; "B"; "C"; "D"]; q_correctOptionIndex := Some 1;
     q_explanation := "B names the joint state."; q_difficulty := 5 |}.

Definition defense_1 : GameQuestion :=
  {| q_id := "q2"; q_type := SOCRATIC_DEFENSE;
     q_question := "Defend locality."; q_options := Some [];
     q_correctOptionIndex := Some (-1);
     q_explanation := "Bell inequalities."; q_difficulty := 8 |}.

(** A response that matches [responseSchema] (every required member is
    there) and holds no concept and no question. *)
Definition empty_payload : StudySessionData :=
  {| title := "T"; summary := "S"; concepts := []; questions := [] |}.

(** A response whose second concept arrives with [mastered: true]. *)
Definition small_payload : StudySessionData :=
  {| title := "T"; summary := "S"; concepts := [concept_a; concept_b];
     questions := [check_1; defense_1] |}.

Definition pasted : InputContext :=
  {| ic_type := kind_text; ic_content := UTF16.of_ascii "Quantum entanglement is ...";
     ic_mimeType := None; ic_fileName := None |}.

Definition props_of (d : StudySessionData) : Session.SessionProps :=
  {| Session.data := d; Session.context := pasted; Session.apiKey := "k" |}.

(** The session [App] starts on [small_payload]. *)
Definition small_props : Session.SessionProps :=
  props_of {| title := "T"; summary := "S";
              concepts := unmaster <$> [concept_a; concept_b];
              questions := [check_1; defense_1] |}.

Definition check_2 : GameQuestion :=
  {| q_id := "q3"; q_type := CONCEPT_CHECK;
     q_question := "Which experiment tests locality?";
     q_options := Some ["A"; "B"; "C"; "D"]; q_correctOptionIndex := Some 2;
     q_explanation := "C is the Bell test."; q_difficulty := 6 |}.

(** Two choice questions and the open question, as the instruction asks. *)
Definition quiz_props : Session.SessionProps :=
  props_of {| title := "T"; summary := "S"; concepts := [concept_a];
              questions := [check_1; check_2; defense_1] |}.

(** A session whose only question is the open one. *)
Definition defense_props : Session.SessionProps :=
  props_of {| title := "T"; summary := "S"; concepts := [concept_a];
              questions := [defense_1] |}.

(** The first question on screen with an option selected. *)
Definition choice_config (sel : option Z) : Session.Config :=
  Session.only (Session.setSelectedOption sel (Session.init small_props))
    (Session.start small_props).

(** The open question on screen with an answer typed. *)
Definition defense_config (answer : UTF16.text) : Session.Config :=
  Session.run defense_props (Session.start defense_props)
    [Session.ShowSimulation; Session.EditSocraticInput answer].

Definition dive_1 : DeepDiveContent :=
  {| theoreticalUnderpinnings := "u1"; realWorldApplication := "a1";
     interdisciplinaryConnection := "i1" |}.

Definition dive_2 : DeepDiveContent :=
  {| theoreticalUnderpinnings := "u2"; realWorldApplication := "a2";
     interdisciplinaryConnection := "i2" |}.

End Fixtures.

(* ===================================================================== *)
(** ** The Ingest component as a transition system *)

Module IngestFlow.
Import Types Ingest.

(** [handleDrag]; [type] is [e.type]. *)
Definition handleDrag (type : string) (s : State) : State :=
  if bool_decide (type = "dragenter") || bool_decide (type = "dragover")
  then setDragActive true s
  else if bool_decide (type = "dragleave") then setDragActive false s
  else s.

(** [handleDrop]; [file0] is [e.dataTransfer.files[0]]. *)
Definition handleDrop (file0 : option File) (s : State) : State * option Effect :=
  match file0 with
  | Some f => let (s', eff) := handleFile f (setDragActive false s) in (s', Some eff)
  | None => (setDragActive false s, None)
  end.

(** [handleFileChange]; [file0] is [e.target.files[0]]. *)
Definition handleFileChange (file0 : option File) (s : State)
  : State * option Effect :=
  match file0 with
  | Some f => let (s', eff) := handleFile f s in (s', Some eff)
  | None => (s, None)
  end.

(** What [handleStart] does: nothing, a call of [onStart] with an input, or,
    when the loaded file has no [data], a call of [onStart] whose [content]
    is [undefined]. *)
Inductive StartOutcome : Set :=
| NotStarted
| Started (input : InputContext)
| StartedWithoutContent (mimeType fileName : string).

(** [handleStart] *)
Definition handleStart (s : State) : StartOutcome :=
  match loadedFile s with
  | Some lf =>
      match lf_data lf with
      | Some d =>
          Started {| ic_type := kind_file; ic_content := d;
                     ic_mimeType := Some (lf_type lf);
                     ic_fileName := Some (lf_name lf) |}
      | None => StartedWithoutContent (lf_type lf) (lf_name lf)
      end
  | None =>
      if (50 <? length (text s))%nat
      then Started {| ic_type := kind_text; ic_content := text s;
                      ic_mimeType := None; ic_fileName := None |}
      else NotStarted
  end.

(** A [FileReader] that has been started, with the [onload] it carries. *)
Inductive Reader : Set :=
| TextReader
| PdfReader (f : File).

Definition reader_of (eff : option Effect) : list Reader :=
  match eff with
  | Some (readAsText _) => [TextReader]
  | Some (readAsDataURL f) => [PdfReader f]
  | Some (alert _) | None => []
  end.

Definition onload (r : Reader) (result : option UTF16.text) (cur : State) : State :=
  match r with
  | TextReader => text_onload result cur
  | PdfReader f => pdf_onload f result cur
  end.

Inductive Event : Set :=
| Drag (type : string)
| Drop (file0 : option File)
| FileChange (file0 : option File)
| Loaded (i : nat) (result : option UTF16.text) (* the load event of a reader *)
| ReadError (i : nat)                          (* a reader that fails: no handler *)
| TypeText (v : UTF16.text)                    (* the textarea's onChange *)
| RemoveArtifact.                              (* setLoadedFile(null) *)

Record Config : Set := mkConfig {
  ist : State;
  readers : list Reader
}.

Definition start : Config := {| ist := init; readers := [] |}.

Definition step (c : Config) (e : Event) : Config :=
  let s := ist c in
  match e with
  | Drag type => {| ist := handleDrag type s; readers := readers c |}
  | Drop file0 =>
      let (s', eff) := handleDrop file0 s in
      {| ist := s'; readers := readers c ++ reader_of eff |}
  | FileChange file0 =>
      let (s', eff) := handleFileChange file0 s in
      {| ist := s'; readers := readers c ++ reader_of eff |}
  | Loaded i result =>
      match readers c !! i with
      | Some r => {| ist := onload r result s; readers := delete i (readers c) |}
      | None => c
      end
  | ReadError i => {| ist := s; readers := delete i (readers c) |}
  | TypeText v => {| ist := setText v s; readers := readers c |}
  | RemoveArtifact => {| ist := setLoadedFile None s; readers := readers c |}
  end.

Definition run (c : Config) (es : list Event) : Config := foldl step c es.

(** Every loaded file and every PDF reader is of type [application/pdf]. *)
Definition pdf_typed (c : Config) : Prop :=
  (∀ lf, loadedFile (ist c) = Some lf → lf_type lf = "application/pdf")
  ∧ Forall (λ r, match r with
                 | PdfReader f => file_type f = "application/pdf"
                 | TextReader => True
                 end) (readers c).

(** No comma in the text. *)
Fixpoint comma_free (s : list N) : bool :=
  match s with
  | u :: s' => negb (bool_decide (u = COMMA)) && comma_free s'
  | [] => true
  end.

End IngestFlow.

(* ===================================================================== *)
(** ** The App component as a transition system *)

Module AppFlow.
Import Types GeminiService App.

#[global] Instance GameState_eq_dec : EqDecision GameState.
Proof. solve_decision. Defined.

(** [onExit={() => setGameState(GameState.INGESTION)}] *)
Definition onExit (s : State) : State :=
  {| gameState := INGESTION; apiKey := apiKey s; inputContext := inputContext s;
     sessionData := sessionData s; error := error s |}.

Inductive Event : Type :=
| StartProcessing (input : InputContext)   (* onStart of Ingest *)
| Generated (i : nat) (r : Reply StudySessionData)
| Exit.                                    (* onExit of Session *)

(** The state and the inputs of the [generateGameSession] calls in flight. *)
Record Config : Type := mkConfig {
  ast : State;
  calls : list InputContext;
  n_issued : nat
}.

(** The component after its mount effect. *)
Definition boot (env_key : option string) : Config :=
  {| ast := mount env_key init; calls := []; n_issued := 0 |}.

Definition step (c : Config) (e : Event) : Config :=
  match e with
  | StartProcessing input =>
      {| ast := handleStartProcessing input (ast c);
         calls := calls c ++ [input]; n_issued := S (n_issued c) |}
  | Generated i r =>
      match calls c !! i with
      | Some _ =>
          {| ast := handleStartProcessing_settled (generateGameSession r) (ast c);
             calls := delete i (calls c); n_issued := n_issued c |}
      | None => c
      end
  | Exit => {| ast := onExit (ast c); calls := calls c; n_issued := n_issued c |}
  end.

Definition run (c : Config) (es : list Event) : Config := foldl step c es.

(** What the markup makes possible: [Ingest] is rendered in the state
    INGESTION only, [Session] only when [session_props] gives its props. *)
Definition offered (c : Config) (e : Event) : bool :=
  match e with
  | StartProcessing _ => bool_decide (gameState (ast c) = INGESTION)
  | Generated i _ => bool_decide (is_Some (calls c !! i))
  | Exit => bool_decide (is_Some (session_props (ast c)))
  end.

Fixpoint all_offered (c : Config) (es : list Event) : bool :=
  match es with
  | [] => true
  | e :: es' => offered c e && all_offered (step c e) es'
  end.

(** The three shapes of a booted App that has a key [k]. *)
Definition keyed (k : string) (c : Config) : Prop :=
  apiKey (ast c) = k
  ∧ ((gameState (ast c) = INGESTION ∧ calls c = [])
     ∨ (gameState (ast c) = PROCESSING
        ∧ ∃ input, calls c = [input] ∧ inputContext (ast c) = Some input)
     ∨ (gameState (ast c) = SESSION_ACTIVE ∧ calls c = []
        ∧ ∃ d input,
            sessionData (ast c) = Some d ∧ inputContext (ast c) = Some input
            ∧ Forall (λ k, c_mastered k = false) (concepts d))).

(** An error notice is the one of a failed generation, on the ingest page. *)
Definition error_ok (c : Config) : Prop :=
  error (ast c) = None
  ∨ (error (ast c) = Some CONSTRUCTION_FAILED ∧ gameState (ast c) = INGESTION).

End AppFlow.

(* ===================================================================== *)
(** ** Invariants of a session *)

Module SessionInvariants.
Import Types GeminiService Session Observe.

(** A sample the chart can show: a stability from 0 to 100 taken at a
    position from 0 to 20. *)
Definition sample_ok (x : Sample) : Prop :=
  0 <= h_stability x <= 100 ∧ 0 <= h_time x <= 20.

Definition stats_ok (s : State) : Prop :=
  0 <= stability (stats s) <= 100
  ∧ 0 <= streak (stats s) ∧ 0 <= syncedNodes (stats s).

(** The newest sample of [h] shows the stability [x]. *)
Definition newest_is (x : Z) (h : list Sample) : Prop :=
  ∃ front y, h = front ++ [y] ∧ h_stability y = x.

Definition chart_ok (c : Config) : Prop :=
  stats_ok (st c)
  ∧ Forall sample_ok (history (st c))
  ∧ newest_is (stability (stats (st c))) (history (st c))
  ∧ Forall (λ p, Forall sample_ok (pending_history p)) (pending c).

Definition is_pending_deep_dive (p : Pending) : bool :=
  match p with PendingDeepDive _ => true | _ => false end.

Definition is_pending_challenge (p : Pending) : bool :=
  match p with
  | PendingChallenge _ | PendingEvaluateChallenge _ _ _ _ => true
  | _ => false
  end.

Definition is_pending_socratic (p : Pending) : bool :=
  match p with PendingSocratic _ _ _ => true | _ => false end.

(** Every loading flag that is set has a call in flight that will clear it. *)
Definition spinners_backed (c : Config) : Prop :=
  (loadingDeepDive (st c) = true → Exists (λ p, is_pending_deep_dive p = true) (pending c))
  ∧ (loadingChallenge (st c) = true → Exists (λ p, is_pending_challenge p = true) (pending c))
  ∧ (isEvaluating (st c) = true → Exists (λ p, is_pending_socratic p = true) (pending c)).

(** The question index points at a question, or at 0 when there is none. *)
Definition index_ok (props : SessionProps) (s : State) : Prop :=
  (currentQIndex s < length (questions (data props)))%nat
  ∨ (questions (data props) = [] ∧ currentQIndex s = 0%nat).

(** The index and the completion flag: the flag is set at the last question
    only. *)
Definition quiz_ok (props : SessionProps) (s : State) : Prop :=
  index_ok props s
  ∧ (quizComplete s = true →
     (currentQIndex s + 1)%nat = length (questions (data props))
     ∨ questions (data props) = []).

(** The concept a pending call closed over, if any. *)
Definition pending_concept (p : Pending) : option StudyConcept :=
  match p with
  | PendingDeepDive ac | PendingChallenge ac
  | PendingEvaluateChallenge ac _ _ _ => Some ac
  | PendingSocratic _ _ _ => None
  end.

(** The cache and the calls in flight only know ids of the session. *)
Definition ids_known (props : SessionProps) (c : Config) : Prop :=
  (c_id <$> concepts (st c)) = (c_id <$> Types.concepts (data props))
  ∧ (∀ id, is_Some (deepDiveData (st c) !! id) →
           id ∈ c_id <$> Types.concepts (data props))
  ∧ Forall (λ p, ∀ ac, pending_concept p = Some ac →
                       c_id ac ∈ c_id <$> Types.concepts (data props))
      (pending c).

End SessionInvariants.

(* ===================================================================== *)
(** * Properties *)

Import Types Constants GeminiService.

(** ** Sanity checks of the string helpers *)

Example trim_blank : UTF16.trim (UTF16.of_ascii "  ") = [].
Proof. reflexivity. Qed.

Example trim_inner :
  UTF16.trim (UTF16.of_ascii " a b  ") = UTF16.of_ascii "a b".
Proof. reflexivity. Qed.

(** NO-BREAK SPACE, IDEOGRAPHIC SPACE, the byte order mark, the line and
    paragraph separators and OGHAM SPACE MARK are stripped around [a]. *)
Example trim_unicode :
  UTF16.trim [160; 12288; 65279; 8232; 97; 8233; 5760]%N = [97]%N.
Proof. reflexivity. Qed.

(** ZERO WIDTH SPACE (U+200B), MONGOLIAN VOWEL SEPARATOR (U+180E) and NEXT
    LINE (U+0085) are not white space of ECMAScript. *)
Example trim_keeps_format_characters :
  UTF16.trim [8203]%N = [8203]%N
  ∧ UTF16.trim [6158]%N = [6158]%N
  ∧ UTF16.trim [133]%N = [133]%N.
Proof. by repeat split. Qed.

Example endsWith_md : JS.endsWith "notes.md" ".md" = true.
Proof. reflexivity. Qed.

Example endsWith_short : JS.endsWith "md" ".md" = false.
Proof. reflexivity. Qed.

Example split_data_url :
  Ingest.split_comma_1 (UTF16.of_ascii "data:application/pdf;base64,QUJD")
  = Some (UTF16.of_ascii "QUJD").
Proof. reflexivity. Qed.

(** ** The stability update *)

Section Stability.
Import Session.

Lemma max_min_clamp (x : Z) : Z.max 0 (Z.min 100 x) = Spec.clamp x 0 100.
Proof.
  unfold Spec.clamp.
  destruct (Z.ltb_spec x 0), (Z.ltb_spec 100 x); lia.
Qed.

Lemma clamp_range (x : Z) : 0 <= Spec.clamp x 0 100 <= 100.
Proof.
  unfold Spec.clamp.
  destruct (Z.ltb_spec x 0), (Z.ltb_spec 100 x); lia.
Qed.

Lemma updateStability_stats (h : list Sample) (d : Z) (cur : State) :
  stats (updateStability h d cur) =
  {| syncedNodes := syncedNodes (stats cur);
     stability := Spec.clamp (stability (stats cur) + d) 0 100;
     streak := if 0 <? d then streak (stats cur) + 1 else 0 |}.
Proof. unfold updateStability. cbn. by rewrite max_min_clamp. Qed.

(** C1: for every delta [d], whatever history the handler closed over,
    [updateStability d] sets the stability to [clamp (s + d) 0 100], a value
    between 0 and 100, adds one to the streak when [d > 0] and resets it to 0
    when [d <= 0]. *)
Theorem C1_updateStability_clamps (h : list Sample) (d : Z) (cur : State) :
  let s' := updateStability h d cur in
  stability (stats s') = Spec.clamp (stability (stats cur) + d) 0 100
  ∧ 0 <= stability (stats s') <= 100
  ∧ (0 < d → streak (stats s') = streak (stats cur) + 1)
  ∧ (d <= 0 → streak (stats s') = 0).
Proof.
  cbv zeta. rewrite updateStability_stats. cbn.
  split; [done|]. split; [apply clamp_range|].
  split; intros Hd.
  - by destruct (Z.ltb_spec 0 d); [|lia].
  - by destruct (Z.ltb_spec 0 d); [lia|].
Qed.

End Stability.

(** ** The history buffer *)

Section History.
Import Session Observe.

Lemma updateStability_history (h : list Sample) (d : Z) (cur : State) :
  history (updateStability h d cur) =
  let sample := {| h_time := Z.of_nat (length h);
                   h_stability := Spec.clamp (stability (stats cur) + d) 0 100 |} in
  if (20 <? length (h ++ [sample]))%nat then tail (h ++ [sample]) else h ++ [sample].
Proof. unfold updateStability. cbn. by rewrite max_min_clamp. Qed.

Lemma tail_length {A} (l : list A) : length (tail l) = pred (length l).
Proof. by destruct l. Qed.

Lemma updateStability_history_length (h : list Sample) (d : Z) (cur : State) :
  (length h <= 20)%nat →
  (length (history (updateStability h d cur)) <= 20)%nat.
Proof.
  intros Hh. rewrite updateStability_history. cbv zeta.
  case_match eqn:Hlt.
  - rewrite tail_length, length_app. cbn. lia.
  - apply Nat.ltb_ge in Hlt. done.
Qed.

(** What an update does to a full and to a non-full buffer. *)
Lemma updateStability_ring (h : list Sample) (d : Z) (cur : State) :
  (length h <= 20)%nat →
  let sample := {| h_time := Z.of_nat (length h);
                   h_stability := stability (stats (updateStability h d cur)) |} in
  history (updateStability h d cur) =
  if (length h <? 20)%nat then h ++ [sample] else tail h ++ [sample].
Proof.
  intros Hh. cbv zeta. rewrite updateStability_history, updateStability_stats.
  cbv zeta. cbn [stability]. rewrite length_app. cbn [length].
  destruct (Nat.ltb_spec (length h) 20) as [Hlt|Hge].
  - by destruct (Nat.ltb_spec 20 (length h + 1)); [lia|].
  - destruct (Nat.ltb_spec 20 (length h + 1)); [|lia].
    destruct h; [cbn in *; lia|done].
Qed.

Lemma history_bounded_start (props : SessionProps) : history_bounded (start props).
Proof. split; cbn; [lia|constructor]. Qed.

Lemma history_bounded_launch (r : State * option Pending) (c : Config) :
  history_bounded c →
  history r.1 = history (st c) →
  (∀ p, r.2 = Some p → pending_history p = history (st c) ∨ pending_history p = []) →
  history_bounded (launch r c).
Proof.
  intros [Hs Hp] Hh Hpend. destruct r as [s [p|]]; cbn in *.
  - split; cbn; [by rewrite Hh|].
    apply Forall_app; split; [done|]. constructor; [|constructor].
    destruct (Hpend p eq_refl) as [-> | ->]; cbn; lia.
  - split; cbn; [by rewrite Hh|done].
Qed.

Lemma settle_history_bounded (p : Pending) (r : ServiceReply) (cur s' : State) :
  (length (pending_history p) <= 20)%nat →
  (length (history cur) <= 20)%nat →
  settle p r cur = Some s' →
  (length (history s') <= 20)%nat.
Proof.
  intros Hp Hcur Hs.
  destruct p, r; cbn in Hs; simplify_eq; cbn in Hp.
  - by destruct (generateDeepDive r).
  - by destruct (generateConceptChallenge r).
  - destruct (evaluateChallenge r) as [res|]; cbn; [|done].
    destruct (cr_passed res); cbn; by apply updateStability_history_length.
  - destruct (evaluateSocraticAnswer r) as [ev|]; cbn; [|done].
    by apply updateStability_history_length.
Qed.

Lemma history_bounded_step (props : SessionProps) (c : Config) (e : Event) :
  history_bounded c → history_bounded (step props c e).
Proof.
  intros Hc. pose proof Hc as [Hs Hp].
  destruct e; cbn; try (split; cbn; done).
  - apply history_bounded_launch; [done| |].
    + unfold fetchDeepDive. by repeat case_match.
    + unfold fetchDeepDive. intros p. repeat case_match; cbn; intros; simplify_eq; cbn; auto.
  - apply history_bounded_launch; [done| |].
    + unfold initSyncProtocol. by repeat case_match.
    + unfold initSyncProtocol. intros p. repeat case_match; cbn; intros; simplify_eq; cbn; auto.
  - apply history_bounded_launch; [done| |].
    + unfold submitSyncChallenge. by repeat case_match.
    + unfold submitSyncChallenge. intros p. repeat case_match; cbn; intros; simplify_eq; cbn; auto.
  - by destruct (feedback (st c)).
  - destruct (currentQ props (st c)) as [q|] eqn:Hq; [|done].
    case_bool_decide.
    + apply history_bounded_launch; [done| |].
      * unfold handleSocraticSubmit. rewrite Hq. by repeat case_match.
      * unfold handleSocraticSubmit. rewrite Hq. intros p.
        repeat case_match; cbn; intros; simplify_eq; cbn; auto.
    + split; cbn; [|done].
      unfold handleChoiceSubmit. rewrite Hq.
      repeat case_match; try done; by apply updateStability_history_length.
  - split; cbn; [|done]. unfold nextQuestion. by case_match.
  - destruct (pending c !! i) as [p|] eqn:Hi; [|done].
    destruct (settle p r (st c)) as [s'|] eqn:Hset; [|done].
    split; cbn.
    + eapply settle_history_bounded; [|done..].
      eapply Forall_lookup_1 in Hp; [|done]. done.
    + by apply Forall_delete.
Qed.

Lemma history_bounded_run (props : SessionProps) (es : list Event) (c : Config) :
  history_bounded c → history_bounded (run props c es).
Proof.
  revert c. induction es as [|e es IH]; intros c Hc; [done|].
  cbn. apply IH. by apply history_bounded_step.
Qed.

(** The history an update writes is [Spec.append_sample] of the history its
    handler closed over. *)
Lemma updateStability_append_sample (h : list Sample) (d : Z) (cur : State) :
  history (updateStability h d cur)
  = Spec.append_sample h (stability (stats (updateStability h d cur))).
Proof. reflexivity. Qed.

(** X21: in every configuration a session can reach, the history buffer holds
    at most 20 samples, and so does the history every outstanding handler
    closed over.  An update on such a history [h] (the buffer of the render
    its handler started in, not always the buffer on screen) writes [h] with
    the sample [{time: h.length, stability: stability'}] appended, without
    the oldest sample of [h] when that makes 21; the result again holds at
    most 20 samples. *)
Theorem X21_history_at_most_20 (props : SessionProps) (es : list Event) :
  let c := run props (start props) es in
  (length (history (st c)) <= 20)%nat
  ∧ ∀ (h : list Sample) (d : Z) (cur : State),
      h = history (st c) ∨ (∃ p, p ∈ pending c ∧ h = pending_history p) →
      let s' := updateStability h d cur in
      let sample := {| h_time := Z.of_nat (length h);
                       h_stability := stability (stats s') |} in
      history s' = (if (length h <? 20)%nat then h ++ [sample]
                    else tail h ++ [sample])
      ∧ (length (history s') <= 20)%nat.
Proof.
  cbv zeta.
  destruct (history_bounded_run props es (start props) (history_bounded_start props))
    as [Hlen Hpend].
  split; [done|]. intros h d cur Hh.
  assert (length h <= 20)%nat as Hle.
  { destruct Hh as [-> | (p & Hp & ->)]; [done|].
    by eapply Forall_forall in Hpend. }
  split.
  - by apply updateStability_ring.
  - by apply updateStability_history_length.
Qed.

(** The 21st sample pushes the first one out. *)
Example history_ring_full :
  let h := (λ n, {| h_time := Z.of_nat n; h_stability := 50 |}) <$> seq 0 20 in
  history (updateStability h 10 (init Fixtures.small_props))
  = tail h ++ [ {| h_time := 20; h_stability := 60 |} ]
  ∧ length (history (updateStability h 10 (init Fixtures.small_props))) = 20%nat.
Proof. cbv zeta. split; vm_compute; reflexivity. Qed.

(** X22: the answer to a choice question is scored in the render that shows
    it, so its update extends the buffer on screen: after the submission of
    a selected option the buffer is the buffer before with the sample
    [{time: length before, stability: stability after}] appended, the oldest
    sample dropped when that makes 21. *)
Theorem X22_choice_submit_appends (props : SessionProps) (c : Config)
    (q : GameQuestion) (sel : Z) :
  currentQ props (st c) = Some q →
  q_type q ≠ SOCRATIC_DEFENSE →
  selectedOption (st c) = Some sel →
  let c' := step props c SubmitAnswer in
  history (st c')
  = Spec.append_sample (history (st c)) (stability (stats (st c'))).
Proof.
  intros Hq Hty Hsel. cbv zeta. cbn [step]. rewrite Hq.
  rewrite bool_decide_eq_false_2 by done. cbn [only st].
  unfold handleChoiceSubmit. rewrite Hsel, Hq.
  case_bool_decide; apply updateStability_append_sample.
Qed.

Lemma X22_choice_submit_appends_witness :
  let c := Fixtures.choice_config (Some 1) in
  let c' := step Fixtures.small_props c SubmitAnswer in
  history (st c')
  = Spec.append_sample (history (st c)) (stability (stats (st c')))
  ∧ Spec.append_sample (history (st c)) (stability (stats (st c')))
    = [ {| h_time := 0; h_stability := 50 |}; {| h_time := 1; h_stability := 60 |} ].
Proof.
  split.
  - exact (X22_choice_submit_appends Fixtures.small_props
             (Fixtures.choice_config (Some 1)) Fixtures.check_1 1
             eq_refl ltac:(done) eq_refl).
  - vm_compute. reflexivity.
Defined.

(** X23: an evaluation that settles while the buffer on screen is still the
    one its handler closed over extends that buffer: for the answer to an
    open question and for the answer to a sync challenge, the buffer after
    the evaluation is the buffer before with the sample of the new stability
    appended, the oldest sample dropped when that makes 21. *)
Theorem X23_unraced_evaluation_appends (props : SessionProps) (c : Config)
    (i : nat) :
  let s := st c in
  (∀ q a ev,
     pending c !! i = Some (PendingSocratic q a (history s)) →
     let c' := step props c (Settle i (SocraticReply (Json ev))) in
     history (st c') = Spec.append_sample (history s) (stability (stats (st c'))))
  ∧ (∀ ac q a res,
       pending c !! i = Some (PendingEvaluateChallenge ac q a (history s)) →
       let c' := step props c (Settle i (EvaluationReply (Json res))) in
       history (st c') = Spec.append_sample (history s) (stability (stats (st c')))).
Proof.
  cbv zeta. split.
  - intros q a ev Hi. cbn [step]. rewrite Hi. cbn [settle st].
    cbn [evaluateSocraticAnswer handleSocraticSubmit_settled].
    apply updateStability_append_sample.
  - intros ac q a res Hi. cbn [step]. rewrite Hi. cbn [settle st].
    cbn [evaluateChallenge submitSyncChallenge_settled].
    destruct (cr_passed res); apply updateStability_append_sample.
Qed.

(** C4, where the code leaves the claim: an evaluation that settles after
    another update has been scored writes the history of the render its
    handler started in, not the buffer on screen.  In this run a sync
    challenge is submitted while the buffer holds the one initial sample, a
    choice question is then answered (the buffer holds two samples), and the
    evaluation of the challenge then arrives as passed.  The claim asks for
    the three samples with the stabilities 50, 60 and 70; the code leaves two
    samples, 50 and 70: nothing is appended and the sample of the answer (60)
    is overwritten.  The stability itself, which [setStats] computes from the
    previous state, is 70 as it should be. *)
Theorem C4_late_update_overwrites_a_sample :
  let props := Fixtures.small_props in
  let es := [SelectConcept "c1"; InitSync;
             Settle 0 (ChallengeReply (TextOf (Some "Why?")));
             EditChallengeAnswer "Because."; SubmitSync;
             ShowSimulation; SelectOption 1; SubmitAnswer] in
  let pass := {| cr_passed := true; cr_score := 90; cr_feedback := "Yes." |} in
  let late := Settle 0 (EvaluationReply (Json pass)) in
  let c := run props (start props) es in
  let c' := step props c late in
  all_offered props (start props) (es ++ [late]) = true
  ∧ history (st c)
    = [ {| h_time := 0; h_stability := 50 |}; {| h_time := 1; h_stability := 60 |} ]
  ∧ stability (stats (st c')) = 70
  ∧ Spec.append_sample (history (st c)) (stability (stats (st c')))
    = [ {| h_time := 0; h_stability := 50 |}; {| h_time := 1; h_stability := 60 |};
        {| h_time := 2; h_stability := 70 |} ]
  ∧ history (st c')
    = [ {| h_time := 0; h_stability := 50 |}; {| h_time := 1; h_stability := 70 |} ]
  ∧ length (history (st c')) = length (history (st c)).
Proof.
  cbv zeta. do 5 (split; [vm_compute; reflexivity|]). vm_compute. reflexivity.
Qed.

(** The scenario of the specification: two choice questions and the open
    question answered correctly from the stability 50 end at 85 in the
    complete state. *)
Example three_correct_answers :
  let props := Fixtures.quiz_props in
  let es := [ShowSimulation;
             SelectOption 1; SubmitAnswer; Continue;
             SelectOption 2; SubmitAnswer; Continue;
             EditSocraticInput (UTF16.of_ascii "Because of Bell."); SubmitAnswer;
             Settle 0 (SocraticReply (Json {| se_score := 90; se_feedback := "Good." |}));
             Continue] in
  let c := run props (start props) es in
  all_offered props (start props) es = true
  ∧ stats (st c) = {| syncedNodes := 0; stability := 85; streak := 3 |}
  ∧ (h_stability <$> history (st c)) = [50; 60; 70; 85]
  ∧ quizComplete (st c) = true
  ∧ pending c = [].
Proof. cbv zeta. repeat split; vm_compute; reflexivity. Qed.

End History.

(** ** The generation client *)

Section Client.
Import Observe.

(** C2, as the code has it: [generateGameSession], [generateDeepDive] and
    [evaluateChallenge] fail when the response text is empty or does not
    parse; [evaluateSocraticAnswer] fails when the text does not parse and
    returns the score 0 with the feedback [Analysis failed.] when it is empty;
    [generateConceptChallenge] does not parse at all: it returns a non-empty
    text as it is and a stock question when the text is empty. *)
Theorem C2_no_usable_payload :
  (∀ r, no_usable_payload r = true → ∃ e, generateGameSession r = Failed e)
  ∧ (∀ r, no_usable_payload r = true → ∃ e, generateDeepDive r = Failed e)
  ∧ (∀ r, no_usable_payload r = true → ∃ e, evaluateChallenge r = Failed e)
  ∧ (∀ raw, evaluateSocraticAnswer (BadJson raw) = Failed SyntaxError)
  ∧ evaluateSocraticAnswer NoText
    = Fulfilled {| se_score := 0; se_feedback := "Analysis failed." |}
  ∧ (∀ r, text_no_usable_payload r = true →
       generateConceptChallenge r
       = Fulfilled "Explain this concept in your own words.")
  ∧ (∀ t, JS.truthy_string t = true →
       generateConceptChallenge (TextOf (Some t)) = Fulfilled t).
Proof.
  repeat split.
  - intros [| | |] ?; simplify_eq/=; eauto.
  - intros [| | |] ?; simplify_eq/=; eauto.
  - intros [| | |] ?; simplify_eq/=; eauto.
  - intros [|[[|]|]] ?; simplify_eq/=; done.
  - intros t Ht. cbn. by rewrite Ht.
Qed.

(** C2, the claim as stated fails: with an empty response text
    [generateConceptChallenge] and [evaluateSocraticAnswer] return a value. *)
Lemma C2_empty_text_returns_a_value :
  text_no_usable_payload (TextOf None) = true
  ∧ generateConceptChallenge (TextOf None)
    = Fulfilled "Explain this concept in your own words."
  ∧ text_no_usable_payload (TextOf (Some "")) = true
  ∧ is_fulfilled (generateConceptChallenge (TextOf (Some ""))) = true
  ∧ no_usable_payload (@NoText SocraticEvaluation) = true
  ∧ evaluateSocraticAnswer NoText
    = Fulfilled {| se_score := 0; se_feedback := "Analysis failed." |}.
Proof. repeat split. Qed.

Lemma unmaster_Forall2 (l : list StudyConcept) :
  Forall2 (λ c c', same_card c c' ∧ c_mastered c = false) (unmaster <$> l) l.
Proof. induction l; constructor; [done|done]. Qed.

(** C8, as the code has it: a call of [generateGameSession] that succeeds
    returns what the response text held, with the same title, summary and
    questions, and the same concepts in the same order and number, each with
    its id, term, definition and analogy and with [mastered] false.  The
    numbers of concepts and of questions and the kinds of the questions are
    those of the response: the code asks for them in its instruction and does
    not check them. *)
Theorem C8_session_is_the_payload (r : Reply StudySessionData)
    (d : StudySessionData) :
  generateGameSession r = Fulfilled d →
  ∃ payload,
    r = Json payload
    ∧ title d = title payload ∧ summary d = summary payload
    ∧ questions d = questions payload
    ∧ length (concepts d) = length (concepts payload)
    ∧ Forall2 (λ c c', same_card c c' ∧ c_mastered c = false)
        (concepts d) (concepts payload).
Proof.
  intros H. destruct r as [| | |payload]; simplify_eq/=.
  exists payload. repeat split; [by rewrite length_fmap|apply unmaster_Forall2].
Qed.

Lemma C8_session_is_the_payload_witness :
  ∃ payload,
    Json Fixtures.small_payload = Json payload
    ∧ title (Session.data Fixtures.small_props) = title payload
    ∧ summary (Session.data Fixtures.small_props) = summary payload
    ∧ questions (Session.data Fixtures.small_props) = questions payload
    ∧ length (concepts (Session.data Fixtures.small_props)) = length (concepts payload)
    ∧ Forall2 (λ c c', same_card c c' ∧ c_mastered c = false)
        (concepts (Session.data Fixtures.small_props)) (concepts payload).
Proof.
  exact (C8_session_is_the_payload (Json Fixtures.small_payload)
           (Session.data Fixtures.small_props) eq_refl).
Defined.

(** C8, the claim as stated fails: a response with no concept and no
    question is returned as a session. *)
Lemma C8_empty_session_is_returned :
  generateGameSession (Json Fixtures.empty_payload)
  = Fulfilled Fixtures.empty_payload
  ∧ length (concepts Fixtures.empty_payload) = 0%nat
  ∧ length (questions Fixtures.empty_payload) = 0%nat.
Proof. repeat split. Qed.

End Client.

(** ** The ingest boundary *)

Section IngestBoundary.
Import Ingest.

(** C10: [handleFile] clears the pasted text for every file; for a file that
    is neither text (type [text/plain], or a name ending in [.md] or [.txt])
    nor a PDF (type [application/pdf]) it does nothing else than show the
    message: the text is gone and the loaded PDF, if any, stays. *)
Theorem C10_handleFile_clears_text (f : File) (s : State) :
  text (handleFile f s).1 = []
  ∧ (file_type f ≠ "text/plain" →
     JS.endsWith (file_name f) ".md" = false →
     JS.endsWith (file_name f) ".txt" = false →
     file_type f ≠ "application/pdf" →
     handleFile f s
     = ({| text := []; dragActive := dragActive s; loadedFile := loadedFile s |},
        alert "Currently supported formats: PDF, TXT, MD")).
Proof.
  split.
  - unfold handleFile. by repeat case_match.
  - intros Hty Hmd Htxt Hpdf. unfold handleFile, is_text_file, is_pdf_file.
    rewrite Hmd, Htxt. by rewrite !bool_decide_eq_false_2.
Qed.

(** A PNG dropped on a page that holds pasted text and a loaded PDF. *)
Example handleFile_png :
  handleFile {| file_name := "scan.png"; file_type := "image/png" |}
    {| text := UTF16.of_ascii "pasted"; dragActive := false;
       loadedFile := Some {| lf_name := "a.pdf"; lf_type := "application/pdf";
                             lf_data := Some (UTF16.of_ascii "QUJD") |} |}
  = ({| text := []; dragActive := false;
        loadedFile := Some {| lf_name := "a.pdf"; lf_type := "application/pdf";
                              lf_data := Some (UTF16.of_ascii "QUJD") |} |},
     alert "Currently supported formats: PDF, TXT, MD").
Proof. reflexivity. Qed.

End IngestBoundary.

(** ** The quiz *)

Section Quiz.
Import Session Observe.

(** C6: submitting on a CONCEPT_CHECK question does nothing when no option
    is selected; with the selected option equal to [correctOptionIndex] it
    applies the delta +10, with any other selected option the delta -15.  No
    call is issued. *)
Theorem C6_choice_submit (props : SessionProps) (c : Config) (q : GameQuestion) :
  currentQ props (st c) = Some q →
  q_type q = CONCEPT_CHECK →
  let s := st c in
  let c' := step props c SubmitAnswer in
  pending c' = pending c ∧ issued c' = issued c
  ∧ match selectedOption s with
    | None => st c' = s
    | Some sel =>
        if bool_decide (Some sel = q_correctOptionIndex q)
        then st c' = updateStability (history s) STABILITY_BONUS
                       (setFeedback
                          (Some {| f_type := success; f_msg := q_explanation q |}) s)
             ∧ STABILITY_BONUS = 10
             ∧ stability (stats (st c'))
               = Spec.clamp (stability (stats s) + 10) 0 100
        else st c' = updateStability (history s) (- STABILITY_PENALTY)
                       (setFeedback
                          (Some {| f_type := error;
                                   f_msg := "Incorrect. " +:+ q_explanation q |}) s)
             ∧ - STABILITY_PENALTY = -15
             ∧ stability (stats (st c'))
               = Spec.clamp (stability (stats s) - 15) 0 100
    end.
Proof.
  intros Hq Hty. cbv zeta. cbn [step]. rewrite Hq, Hty.
  rewrite bool_decide_eq_false_2 by done. cbn [only st pending issued].
  split; [done|]. split; [done|].
  unfold handleChoiceSubmit. rewrite Hq.
  destruct (selectedOption (st c)) as [sel|]; [|done].
  case_bool_decide; (split; [done|]); (split; [done|]);
    by rewrite updateStability_stats.
Qed.

Lemma C6_choice_submit_witness :
  let right := Fixtures.choice_config (Some 1) in
  let wrong := Fixtures.choice_config (Some 3) in
  stability (stats (st (step Fixtures.small_props right SubmitAnswer))) = 60
  ∧ stability (stats (st (step Fixtures.small_props wrong SubmitAnswer))) = 35.
Proof.
  pose proof (C6_choice_submit Fixtures.small_props (Fixtures.choice_config (Some 1))
                Fixtures.check_1 eq_refl eq_refl) as (_ & _ & H1).
  pose proof (C6_choice_submit Fixtures.small_props (Fixtures.choice_config (Some 3))
                Fixtures.check_1 eq_refl eq_refl) as (_ & _ & H3).
  cbn in H1, H3. destruct H1 as (_ & _ & H1), H3 as (_ & _ & H3).
  split; [exact H1 | exact H3].
Defined.

(** [STABILITY_BONUS * 1.5] is 15. *)
Lemma SOCRATIC_BONUS_is_15 : SOCRATIC_BONUS = 15.
Proof. reflexivity. Qed.

Lemma trimStart_nil (t : list N) :
  UTF16.trimStart t = [] ↔ forallb UTF16.is_white_space t = true.
Proof.
  induction t as [|u t IH]; [done|]. cbn.
  destruct (UTF16.is_white_space u); [exact IH|]. by split.
Qed.

Lemma trimStart_white (t : list N) :
  forallb UTF16.is_white_space (UTF16.trimStart t) = true →
  UTF16.trimStart t = [].
Proof.
  induction t as [|u t IH]; [done|]. cbn.
  destruct (UTF16.is_white_space u) eqn:Hu; [exact IH|].
  cbn. by rewrite Hu.
Qed.

Lemma forallb_reverse (f : N → bool) (t : list N) :
  forallb f (reverse t) = forallb f t.
Proof.
  induction t as [|u t IH]; [done|].
  rewrite reverse_cons, forallb_app, IH. cbn.
  rewrite andb_true_r. apply andb_comm.
Qed.

(** [trim] leaves nothing exactly when every code unit is white space. *)
Lemma trim_nil (t : list N) :
  UTF16.trim t = [] ↔ forallb UTF16.is_white_space t = true.
Proof.
  unfold UTF16.trim. rewrite <- trimStart_nil. split.
  - intros H. apply (f_equal reverse) in H. rewrite reverse_involutive in H.
    change (reverse []) with (@nil N) in H.
    apply trimStart_nil in H. rewrite forallb_reverse in H.
    by apply trimStart_white.
  - intros ->. reflexivity.
Qed.

(** C7, as the code has it: submitting on a SOCRATIC_DEFENSE question does
    nothing when the answer is blank (empty after [trim], that is, made of
    white space and line terminators of ECMAScript only); otherwise it issues
    one evaluation, and when that returns a score the
    score decides by the threshold 70: from 70 on the feedback is a success
    and the delta +15 is applied, below 70 the feedback is an error and the
    delta -15 is applied. *)
Theorem C7_socratic_threshold (props : SessionProps) (c : Config)
    (q : GameQuestion) :
  currentQ props (st c) = Some q →
  q_type q = SOCRATIC_DEFENSE →
  let s := st c in
  let p := PendingSocratic (q_question q) (socraticInput s) (history s) in
  (UTF16.trim (socraticInput s) = []
   ↔ forallb UTF16.is_white_space (socraticInput s) = true)
  ∧ (UTF16.trim (socraticInput s) = [] → step props c SubmitAnswer = c)
  ∧ (UTF16.trim (socraticInput s) ≠ [] →
     step props c SubmitAnswer
     = {| st := setIsEvaluating true s; pending := pending c ++ [p];
          issued := issued c ++ [p] |}
     ∧ ∀ (ev : SocraticEvaluation) (cur : State),
         ∃ s', settle p (SocraticReply (Json ev)) cur = Some s'
           ∧ (70 <= se_score ev →
                s' = setIsEvaluating false
                       (updateStability (history s) 15
                          (setFeedback
                             (Some {| f_type := success;
                                      f_msg := "[EVALUATION]: " +:+ se_feedback ev
                                                 +:+ " (Score: "
                                                 +:+ pretty (se_score ev)
                                                 +:+ "/100)" |}) cur))
                ∧ stability (stats s')
                  = Spec.clamp (stability (stats cur) + 15) 0 100)
           ∧ (se_score ev < 70 →
                s' = setIsEvaluating false
                       (updateStability (history s) (-15)
                          (setFeedback
                             (Some {| f_type := error;
                                      f_msg := "[EVALUATION]: " +:+ se_feedback ev
                                                 +:+ " (Score: "
                                                 +:+ pretty (se_score ev)
                                                 +:+ "/100)" |}) cur))
                ∧ stability (stats s')
                  = Spec.clamp (stability (stats cur) - 15) 0 100)).
Proof.
  intros Hq Hty. cbv zeta. cbn [step]. rewrite Hq, Hty.
  rewrite bool_decide_eq_true_2 by done.
  unfold handleSocraticSubmit. rewrite Hq. split; [apply trim_nil|]. split.
  - intros ->. by destruct c.
  - intros Hne.
    destruct (UTF16.trim (socraticInput (st c))) eqn:Ht; [done|]. cbn [UTF16.truthy].
    split; [done|]. intros ev cur. eexists. split; [reflexivity|].
    cbn [evaluateSocraticAnswer handleSocraticSubmit_settled]. split.
    + intros Hs. rewrite (proj2 (Z.leb_le 70 _) Hs).
      split; [done|]. cbn. by rewrite max_min_clamp.
    + intros Hs. rewrite (proj2 (Z.leb_gt 70 _) Hs).
      split; [done|]. cbn. by rewrite max_min_clamp.
Qed.

Lemma C7_socratic_threshold_witness :
  ∃ s70 s69,
    settle (PendingSocratic "Defend locality." (UTF16.of_ascii "x") (history (init Fixtures.defense_props)))
      (SocraticReply (Json {| se_score := 70; se_feedback := "ok" |}))
      (st (step Fixtures.defense_props (Fixtures.defense_config (UTF16.of_ascii "x")) SubmitAnswer))
    = Some s70
    ∧ settle (PendingSocratic "Defend locality." (UTF16.of_ascii "x") (history (init Fixtures.defense_props)))
        (SocraticReply (Json {| se_score := 69; se_feedback := "no" |}))
        (st (step Fixtures.defense_props (Fixtures.defense_config (UTF16.of_ascii "x")) SubmitAnswer))
      = Some s69
    ∧ stability (stats s70) = 65 ∧ stability (stats s69) = 35
    ∧ (f_type <$> feedback s70) = Some success
    ∧ (f_type <$> feedback s69) = Some error.
Proof.
  pose proof (C7_socratic_threshold Fixtures.defense_props
                (Fixtures.defense_config (UTF16.of_ascii "x")) Fixtures.defense_1 eq_refl eq_refl)
    as (_ & _ & H).
  destruct (H ltac:(done)) as [_ Hev].
  destruct (Hev {| se_score := 70; se_feedback := "ok" |}
              (st (step Fixtures.defense_props (Fixtures.defense_config (UTF16.of_ascii "x")) SubmitAnswer)))
    as (s70 & H70 & Hpass & _).
  destruct (Hev {| se_score := 69; se_feedback := "no" |}
              (st (step Fixtures.defense_props (Fixtures.defense_config (UTF16.of_ascii "x")) SubmitAnswer)))
    as (s69 & H69 & _ & Hfail).
  destruct (Hpass ltac:(done)) as [-> _].
  destruct (Hfail ltac:(done)) as [-> _].
  eexists _, _. split; [exact H70|]. split; [exact H69|]. done.
Defined.

(** C7, the claim as stated fails: an answer of one space is not empty, the
    submit button is enabled, and submitting issues no evaluation and applies
    no delta. *)
Lemma C7_blank_answer_is_not_evaluated :
  let es := [ShowSimulation; EditSocraticInput (UTF16.of_ascii " "); SubmitAnswer] in
  let c := run Fixtures.defense_props (start Fixtures.defense_props) es in
  all_offered Fixtures.defense_props (start Fixtures.defense_props) es = true
  ∧ (q_type <$> currentQ Fixtures.defense_props (st c)) = Some SOCRATIC_DEFENSE
  ∧ socraticInput (st c) = UTF16.of_ascii " "
  ∧ UTF16.truthy (socraticInput (st c)) = true
  ∧ issued c = [] ∧ pending c = []
  ∧ stats (st c) = stats (init Fixtures.defense_props)
  ∧ history (st c) = history (init Fixtures.defense_props)
  ∧ feedback (st c) = None.
Proof. cbv zeta. repeat split. Qed.

(** The same for an answer of one NO-BREAK SPACE (U+00A0) followed by an
    IDEOGRAPHIC SPACE (U+3000): [trim] strips both, nothing is evaluated. *)
Example no_break_space_is_not_evaluated :
  let es := [ShowSimulation; EditSocraticInput [160; 12288]%N; SubmitAnswer] in
  let c := run Fixtures.defense_props (start Fixtures.defense_props) es in
  all_offered Fixtures.defense_props (start Fixtures.defense_props) es = true
  ∧ issued c = [] ∧ pending c = []
  ∧ stats (st c) = stats (init Fixtures.defense_props)
  ∧ feedback (st c) = None.
Proof. cbv zeta. repeat split. Qed.

(** An answer of one ZERO WIDTH SPACE (U+200B), which [trim] keeps, is
    evaluated. *)
Example zero_width_space_is_evaluated :
  let es := [ShowSimulation; EditSocraticInput [8203]%N; SubmitAnswer] in
  let c := run Fixtures.defense_props (start Fixtures.defense_props) es in
  issued c = [PendingSocratic "Defend locality." [8203]%N
                (history (init Fixtures.defense_props))]
  ∧ isEvaluating (st c) = true.
Proof. cbv zeta. by split. Qed.

End Quiz.

(** ** Mastery *)

Section Mastery.
Import Session Observe.

(** The only event that writes [concepts]. *)
Lemma step_concepts (props : SessionProps) (c : Config) (e : Event) :
  concepts (st (step props c e)) = concepts (st c)
  ∨ ∃ j ac q a h result,
      e = Settle j (EvaluationReply (Json result))
      ∧ pending c !! j = Some (PendingEvaluateChallenge ac q a h)
      ∧ cr_passed result = true
      ∧ concepts (st (step props c e))
        = (λ k, if bool_decide (c_id k = c_id ac) then master k else k)
            <$> concepts (st c).
Proof.
  destruct e; cbn [step]; try (by left).
  - left. unfold fetchDeepDive. by repeat case_match.
  - left. unfold initSyncProtocol. by repeat case_match.
  - left. unfold submitSyncChallenge. by repeat case_match.
  - left. by case_match.
  - left. unfold handleSocraticSubmit, handleChoiceSubmit. by repeat case_match.
  - left. unfold nextQuestion. by case_match.
  - destruct (pending c !! i) as [p|] eqn:Hi; [|by left].
    destruct p, r; cbn [settle]; try (by left).
    + left. cbn. by destruct (generateDeepDive r).
    + left. cbn. by destruct (generateConceptChallenge r).
    + destruct r as [| | |result]; try (by left).
      destruct (cr_passed result) eqn:Hpass.
      * right. exists i, ac, question, answer, history_snap, result.
        split; [done|]. split; [done|]. split; [done|]. cbn. by rewrite Hpass.
      * left. cbn. by rewrite Hpass.
    + left. cbn. by destruct (evaluateSocraticAnswer r).
Qed.

Lemma master_lookup (ac : StudyConcept) (l : list StudyConcept) (i : nat)
    (k : StudyConcept) :
  l !! i = Some k →
  ∃ k', ((λ k, if bool_decide (c_id k = c_id ac) then master k else k) <$> l) !! i
        = Some k'
        ∧ same_card k' k
        ∧ (c_mastered k = true → c_mastered k' = true)
        ∧ (c_mastered k = false → c_mastered k' = true → c_id ac = c_id k).
Proof.
  intros Hi. rewrite list_lookup_fmap, Hi. cbn. eexists. split; [done|].
  case_bool_decide as Hk; cbn.
  - by repeat split.
  - repeat split; try done. intros Hf Ht. congruence.
Qed.

Lemma generateGameSession_unmastered (r : Reply StudySessionData)
    (d : StudySessionData) :
  generateGameSession r = Fulfilled d →
  Forall (λ k, c_mastered k = false) (Types.concepts d).
Proof.
  destruct r as [| | |payload]; intros H; simplify_eq/=.
  apply Forall_fmap, Forall_true. done.
Qed.

(** What one event does to the concept at position [i]. *)
Lemma step_mastered (props : SessionProps) (c : Config) (e : Event) (i : nat)
    (k : StudyConcept) :
  concepts (st c) !! i = Some k →
  ∃ k', concepts (st (step props c e)) !! i = Some k'
        ∧ same_card k' k
        ∧ (c_mastered k = true → c_mastered k' = true)
        ∧ (c_mastered k = false → c_mastered k' = true →
           ∃ j ac q a h result,
             e = Settle j (EvaluationReply (Json result))
             ∧ pending c !! j = Some (PendingEvaluateChallenge ac q a h)
             ∧ cr_passed result = true
             ∧ c_id ac = c_id k).
Proof.
  intros Hi.
  destruct (step_concepts props c e)
    as [-> | (j & ac & q & a & h & result & He & Hj & Hp & ->)].
  - exists k. repeat split; [done|done|]. congruence.
  - destruct (master_lookup ac _ i k Hi) as (k' & Hk' & Hsame & Hmono & Hflip).
    exists k'. repeat split; try done; try apply Hsame.
    intros Hf Ht. exists j, ac, q, a, h, result. auto.
Qed.

(** A mastered concept stays mastered, and in its place, to the end of the
    session. *)
Lemma run_mastered (props : SessionProps) (es : list Event) (c : Config)
    (i : nat) (k : StudyConcept) :
  concepts (st c) !! i = Some k →
  c_mastered k = true →
  ∃ k', concepts (st (run props c es)) !! i = Some k'
        ∧ same_card k' k ∧ c_mastered k' = true.
Proof.
  revert c k. induction es as [|e es IH]; intros c k Hi Hm.
  - exists k. by repeat split.
  - destruct (step_mastered props c e i k Hi) as (k1 & H1 & Hsame1 & Hmono & _).
    destruct (IH (step props c e) k1 H1 (Hmono Hm)) as (k' & Hk' & Hsame & Hm').
    exists k'. split; [exact Hk'|]. split; [|done].
    unfold same_card in *. intuition congruence.
Qed.

(** C3: every concept of a session that [generateGameSession] returned, and
    so every concept of the session [App] starts on it, has [mastered] false,
    whatever the response held; no event of a session moves a concept or sets
    its flag from true to false; an event sets the flag of a concept from
    false to true only when it is the settling of [evaluateChallenge] with a
    result whose [passed] is true, for the concept that was active when the
    answer was submitted; and a concept that is mastered stays mastered for
    the rest of the session. *)
Theorem C3_mastered_flag :
  (∀ r d, generateGameSession r = Fulfilled d →
          Forall (λ k, c_mastered k = false) (Types.concepts d))
  ∧ (∀ app r props,
       App.session_props
         (App.handleStartProcessing_settled (generateGameSession r) app)
       = Some props →
       Forall (λ k, c_mastered k = false) (concepts (init props)))
  ∧ (∀ props c e i k,
       concepts (st c) !! i = Some k →
       ∃ k', concepts (st (step props c e)) !! i = Some k'
             ∧ same_card k' k
             ∧ (c_mastered k = true → c_mastered k' = true)
             ∧ (c_mastered k = false → c_mastered k' = true →
                ∃ j ac q a h result,
                  e = Settle j (EvaluationReply (Json result))
                  ∧ pending c !! j = Some (PendingEvaluateChallenge ac q a h)
                  ∧ cr_passed result = true
                  ∧ c_id ac = c_id k))
  ∧ (∀ props es c i k,
       concepts (st c) !! i = Some k →
       c_mastered k = true →
       ∃ k', concepts (st (run props c es)) !! i = Some k'
             ∧ same_card k' k ∧ c_mastered k' = true).
Proof.
  split; [exact generateGameSession_unmastered|]. split; [|split].
  - intros app r props H.
    destruct (generateGameSession r) as [d|] eqn:Hr; cbn in H; [|done].
    unfold App.session_props in H. cbn in H.
    destruct (App.inputContext app); simplify_eq/=.
    by eapply generateGameSession_unmastered.
  - exact step_mastered.
  - exact run_mastered.
Qed.

(** Passing the challenge of the first concept masters it and nothing else;
    failing it masters nothing. *)
Example sync_passed_and_failed :
  let props := Fixtures.small_props in
  let es := [SelectConcept "c1"; InitSync;
             Settle 0 (ChallengeReply (TextOf (Some "Why?")));
             EditChallengeAnswer "Because."; SubmitSync] in
  let c := run props (start props) es in
  let pass := {| cr_passed := true; cr_score := 90; cr_feedback := "Yes." |} in
  let fail := {| cr_passed := false; cr_score := 20; cr_feedback := "No." |} in
  let c_pass := step props c (Settle 0 (EvaluationReply (Json pass))) in
  let c_fail := step props c (Settle 0 (EvaluationReply (Json fail))) in
  all_offered props (start props) es = true
  ∧ (c_mastered <$> concepts (st c)) = [false; false]
  ∧ (c_mastered <$> concepts (st c_pass)) = [true; false]
  ∧ stats (st c_pass) = {| syncedNodes := 1; stability := 60; streak := 1 |}
  ∧ (c_mastered <$> concepts (st c_fail)) = [false; false]
  ∧ stats (st c_fail) = {| syncedNodes := 0; stability := 45; streak := 0 |}.
Proof. cbv zeta. repeat split; vm_compute; reflexivity. Qed.

(** A response that arrives with [mastered: true] starts unmastered. *)
Example unmaster_small_payload :
  (c_mastered <$> Types.concepts Fixtures.small_payload) = [false; true]
  ∧ ∃ d, generateGameSession (Json Fixtures.small_payload) = Fulfilled d
         ∧ (c_mastered <$> Types.concepts d) = [false; false].
Proof. split; [done|]. eexists. split; reflexivity. Qed.

End Mastery.

(** ** The deep-dive cache *)

Section DeepDive.
Import Session Observe.

(** The only event that writes the cache. *)
Lemma step_deepDiveData (props : SessionProps) (c : Config) (e : Event) :
  deepDiveData (st (step props c e)) = deepDiveData (st c)
  ∨ ∃ j ac d,
      e = Settle j (DeepDiveReply (Json d))
      ∧ pending c !! j = Some (PendingDeepDive ac)
      ∧ deepDiveData (st (step props c e))
        = <[c_id ac := d]> (deepDiveData (st c)).
Proof.
  destruct e; cbn [step]; try (by left).
  - left. unfold fetchDeepDive. by repeat case_match.
  - left. unfold initSyncProtocol. by repeat case_match.
  - left. unfold submitSyncChallenge. by repeat case_match.
  - left. by case_match.
  - left. unfold handleSocraticSubmit, handleChoiceSubmit. by repeat case_match.
  - left. unfold nextQuestion. by case_match.
  - destruct (pending c !! i) as [p|] eqn:Hi; [|by left].
    destruct p, r; cbn [settle]; try (by left).
    + destruct r as [| | |d]; try (by left).
      right. by exists i, ac, d.
    + left. cbn. by destruct (generateConceptChallenge r).
    + left. cbn. destruct (evaluateChallenge r) as [res|]; [|done].
      cbn. by destruct (cr_passed res).
    + left. cbn. by destruct (evaluateSocraticAnswer r).
Qed.

Lemma step_keeps_entry (props : SessionProps) (c : Config) (e : Event)
    (id : string) :
  is_Some (deepDiveData (st c) !! id) →
  is_Some (deepDiveData (st (step props c e)) !! id).
Proof.
  intros Hid.
  destruct (step_deepDiveData props c e) as [-> | (j & ac & d & _ & _ & ->)];
    [done|].
  rewrite lookup_insert. by case_decide.
Qed.

Lemma deep_dive_calls_snoc (id : string) (l : list Pending) (p : Pending) :
  deep_dive_calls id (l ++ [p])
  = (deep_dive_calls id l + if is_deep_dive_for id p then 1 else 0)%nat.
Proof.
  unfold deep_dive_calls. rewrite List.filter_app, length_app. cbn.
  by destruct (is_deep_dive_for id p).
Qed.

Lemma deep_dive_calls_launch (id : string) (r : State * option Pending)
    (c : Config) :
  (∀ p, r.2 = Some p → is_deep_dive_for id p = false) →
  deep_dive_calls id (issued (launch r c)) = deep_dive_calls id (issued c).
Proof.
  intros Hp. destruct r as [s [p|]]; cbn [launch issued only]; [|done].
  rewrite deep_dive_calls_snoc, (Hp p eq_refl). lia.
Qed.

(** With an entry for [id] in the cache no event issues a deep-dive call for
    [id]. *)
Lemma step_cached_no_call (props : SessionProps) (c : Config) (e : Event)
    (id : string) :
  is_Some (deepDiveData (st c) !! id) →
  deep_dive_calls id (issued (step props c e)) = deep_dive_calls id (issued c).
Proof.
  intros [v Hid].
  destruct e; cbn [step]; try done.
  - apply deep_dive_calls_launch. intros p. unfold fetchDeepDive.
    destruct (activeConcept (st c)) as [ac|]; [|done].
    destruct (deepDiveData_truthy _ _) eqn:Htruthy; [done|].
    cbn. intros [= <-]. cbn. apply bool_decide_eq_false_2. intros Heq.
    unfold deepDiveData_truthy in Htruthy. by rewrite Heq, Hid in Htruthy.
  - apply deep_dive_calls_launch. intros p. unfold initSyncProtocol.
    repeat case_match; cbn; intros; by simplify_eq.
  - apply deep_dive_calls_launch. intros p. unfold submitSyncChallenge.
    repeat case_match; cbn; intros; by simplify_eq.
  - by case_match.
  - destruct (currentQ props (st c)) as [q|] eqn:Hq; [|done].
    case_bool_decide; [|done].
    apply deep_dive_calls_launch. intros p. unfold handleSocraticSubmit.
    rewrite Hq. repeat case_match; cbn; intros; by simplify_eq.
  - by repeat case_match.
Qed.

Lemma run_cached_no_call (props : SessionProps) (es : list Event) (c : Config)
    (id : string) :
  is_Some (deepDiveData (st c) !! id) →
  deep_dive_calls id (issued (run props c es)) = deep_dive_calls id (issued c)
  ∧ is_Some (deepDiveData (st (run props c es)) !! id).
Proof.
  revert c. induction es as [|e es IH]; intros c Hid; [done|].
  cbn. destruct (IH (step props c e)) as [Hcalls Hentry].
  { by apply step_keeps_entry. }
  split; [|done]. unfold run in Hcalls. rewrite Hcalls.
  by apply step_cached_no_call.
Qed.

(** C5, as the code has it: a deep-dive request for a concept whose id has a
    cache entry issues no call, switches the mode to DEEP_DIVE at once and
    leaves the entry as it is; an event changes the cache only by writing the
    value a successful [generateDeepDive] returned under the id it was
    requested for; and from the moment an id has an entry no call for it is
    issued for the rest of the session and the entry stays. *)
Theorem C5_deep_dive_cache :
  (∀ s ac v,
     activeConcept s = Some ac →
     deepDiveData s !! c_id ac = Some v →
     fetchDeepDive s = (setConceptMode DEEP_DIVE s, None)
     ∧ conceptMode (fetchDeepDive s).1 = DEEP_DIVE
     ∧ deepDiveData (fetchDeepDive s).1 !! c_id ac = Some v)
  ∧ (∀ props c e,
       deepDiveData (st (step props c e)) ≠ deepDiveData (st c) →
       ∃ j ac d,
         e = Settle j (DeepDiveReply (Json d))
         ∧ pending c !! j = Some (PendingDeepDive ac)
         ∧ generateDeepDive (Json d) = Fulfilled d
         ∧ deepDiveData (st (step props c e))
           = <[c_id ac := d]> (deepDiveData (st c)))
  ∧ (∀ props c id es,
       is_Some (deepDiveData (st c) !! id) →
       deep_dive_calls id (issued (run props c es))
       = deep_dive_calls id (issued c)
       ∧ is_Some (deepDiveData (st (run props c es)) !! id)).
Proof.
  split; [|split].
  - intros s ac v Hac Hv. unfold fetchDeepDive, deepDiveData_truthy.
    rewrite Hac, Hv. done.
  - intros props c e Hne.
    destruct (step_deepDiveData props c e) as [Heq | (j & ac & d & He & Hj & Hd)];
      [done|].
    by exists j, ac, d.
  - intros props c id es. apply run_cached_no_call.
Qed.

(** After the first response has been stored a further request issues no
    call and shows the stored value. *)
Example cached_request_issues_no_call :
  let props := Fixtures.small_props in
  let es := [SelectConcept "c1"; RequestDeepDive;
             Settle 0 (DeepDiveReply (Json Fixtures.dive_1));
             ShowOverview; RequestDeepDive] in
  let c := run props (start props) es in
  all_offered props (start props) es = true
  ∧ deep_dive_calls "c1" (issued c) = 1%nat
  ∧ pending c = []
  ∧ conceptMode (st c) = DEEP_DIVE
  ∧ deepDiveData (st c) !! "c1" = Some Fixtures.dive_1.
Proof. cbv zeta. repeat split; vm_compute; reflexivity. Qed.

(** A concept whose id is a member of [Object.prototype] reads as cached from
    the start: the request issues no call although the cache is empty. *)
Example inherited_key_reads_as_cached :
  let k := {| c_id := "constructor"; c_term := "Constructor";
              c_definition := "d"; c_analogy := "a"; c_mastered := false |} in
  let s := handleConceptSelect "constructor"
             (setConcepts [k] (init Fixtures.small_props)) in
  deepDiveData s = ∅
  ∧ fetchDeepDive s = (setConceptMode DEEP_DIVE s, None).
Proof. cbv zeta. split; vm_compute; reflexivity. Qed.

(** C5, the claim as stated fails: two requests for the same concept made
    before the first response has arrived issue two calls, both succeed, and
    the second value replaces the first. *)
Lemma C5_two_calls_for_one_id :
  let props := Fixtures.small_props in
  let clicks := [SelectConcept "c1"; RequestDeepDive; RequestDeepDive] in
  let first := [Settle 0 (DeepDiveReply (Json Fixtures.dive_1))] in
  let second := [Settle 0 (DeepDiveReply (Json Fixtures.dive_2))] in
  let c2 := run props (start props) clicks in
  let c3 := run props c2 first in
  let c4 := run props c3 second in
  all_offered props (start props) (clicks ++ first ++ second) = true
  ∧ deep_dive_calls "c1" (issued c2) = 2%nat
  ∧ deepDiveData (st c2) !! "c1" = None
  ∧ deepDiveData (st c3) !! "c1" = Some Fixtures.dive_1
  ∧ deepDiveData (st c4) !! "c1" = Some Fixtures.dive_2
  ∧ deep_dive_calls "c1" (issued c4) = 2%nat.
Proof. cbv zeta. repeat split; vm_compute; reflexivity. Qed.

End DeepDive.

(** ** Failed calls *)

Section Failures.
Import Session Observe.

(** A call whose promise rejects leaves the progress of the session as it
    is: the [catch] of the handler sets a notice at most. *)
Lemma rejected_keeps_progress (p : Pending) (r : ServiceReply) (cur s' : State) :
  settle p r cur = Some s' →
  rejects r = true →
  progress s' = progress cur.
Proof.
  intros Hs Hr. destruct p, r; cbn in Hs, Hr; simplify_eq.
  - by destruct (generateDeepDive r).
  - by destruct (generateConceptChallenge r).
  - by destruct (evaluateChallenge r).
  - by destruct (evaluateSocraticAnswer r).
Qed.

(** Which failed calls reach the handler as a rejected promise. *)
Lemma call_failed_rejects (r : ServiceReply) :
  call_failed r = true →
  rejects r = true
  ∨ r = SocraticReply NoText
  ∨ ∃ t, r = ChallengeReply (TextOf t) ∧ JS.truthy t = false.
Proof.
  destruct r as [[| | |]|[|t]|[| | |]|[| | |]]; cbn; intros H; simplify_eq; auto.
  right. right. exists t. split; [done|]. by apply negb_true_iff.
Qed.

(** C9, as the code has it: when a call of the session fails (the call
    throws, or the response text is empty or does not parse), the handler
    that awaits it runs to its end and the stats with the streak, the history,
    the concepts with their mastered flags and the deep-dive cache are what
    they were, except for an empty response text to [evaluateSocraticAnswer]:
    that one is graded as the score 0. *)
Theorem C9_failed_call_keeps_progress (p : Pending) (r : ServiceReply)
    (cur : State) :
  answers p r = true →
  call_failed r = true →
  r ≠ SocraticReply NoText →
  ∃ s', settle p r cur = Some s'
        ∧ stats s' = stats cur
        ∧ history s' = history cur
        ∧ concepts s' = concepts cur
        ∧ deepDiveData s' = deepDiveData cur.
Proof.
  intros Ha Hf Hne.
  destruct (settle p r cur) as [s'|] eqn:Hs; [|by destruct p, r].
  exists s'. split; [done|].
  destruct (call_failed_rejects r Hf) as [Hr | [-> | (t & -> & Ht)]]; [|done|].
  - pose proof (rejected_keeps_progress p r cur s' Hs Hr) as Hp.
    unfold progress in Hp. by simplify_eq.
  - destruct p; cbn in Hs; simplify_eq. done.
Qed.

Lemma C9_failed_call_keeps_progress_witness :
  ∃ s',
    settle (PendingEvaluateChallenge Fixtures.concept_a "Q" "A"
              (history (init Fixtures.small_props)))
      (EvaluationReply NoText) (init Fixtures.small_props) = Some s'
    ∧ stats s' = stats (init Fixtures.small_props)
    ∧ history s' = history (init Fixtures.small_props)
    ∧ concepts s' = concepts (init Fixtures.small_props)
    ∧ deepDiveData s' = deepDiveData (init Fixtures.small_props).
Proof.
  apply (C9_failed_call_keeps_progress
           (PendingEvaluateChallenge Fixtures.concept_a "Q" "A"
              (history (init Fixtures.small_props)))
           (EvaluationReply NoText) (init Fixtures.small_props)).
  - reflexivity.
  - reflexivity.
  - discriminate.
Defined.

(** C9, the claim as stated fails: an empty response text to the evaluation
    of an open answer is a failed call, and the handler takes 15 off the
    stability and appends a sample to the history. *)
Lemma C9_empty_evaluation_is_penalised :
  let props := Fixtures.defense_props in
  let es := [ShowSimulation; EditSocraticInput (UTF16.of_ascii "x"); SubmitAnswer] in
  let c := run props (start props) es in
  let c' := step props c (Settle 0 (SocraticReply NoText)) in
  all_offered props (start props) (es ++ [Settle 0 (SocraticReply NoText)]) = true
  ∧ call_failed (SocraticReply NoText) = true
  ∧ stability (stats (st c)) = 50
  ∧ stability (stats (st c')) = 35
  ∧ history (st c) = [ {| h_time := 0; h_stability := 50 |} ]
  ∧ history (st c')
    = [ {| h_time := 0; h_stability := 50 |}; {| h_time := 1; h_stability := 35 |} ]
  ∧ (f_type <$> feedback (st c')) = Some error.
Proof. cbv zeta. repeat split; vm_compute; reflexivity. Qed.

End Failures.

(** ** Invariants of a running session *)

Section SessionRuns.
Import Session Observe SessionInvariants.

Lemma updateStability_chart (h : list Sample) (d : Z) (cur : State) :
  (length h <= 20)%nat →
  Forall sample_ok h →
  stats_ok cur →
  stats_ok (updateStability h d cur)
  ∧ Forall sample_ok (history (updateStability h d cur))
  ∧ newest_is (stability (stats (updateStability h d cur)))
      (history (updateStability h d cur)).
Proof.
  intros Hlen Hh (Hstab & Hstreak & Hsync).
  pose proof (updateStability_ring h d cur Hlen) as Hring. cbv zeta in Hring.
  unfold stats_ok. rewrite Hring, !updateStability_stats. clear Hring.
  cbn [stability streak syncedNodes].
  pose proof (clamp_range (stability (stats cur) + d)) as Hc.
  assert (sample_ok {| h_time := Z.of_nat (length h);
                       h_stability := Spec.clamp (stability (stats cur) + d) 0 100 |})
    as Hsample.
  { split; cbn; lia. }
  split; [|split].
  - split; [exact Hc|]. split; [|done]. destruct (0 <? d); lia.
  - case_match.
    + apply Forall_app; split; [done|]. by constructor.
    + apply Forall_app; split; [|by constructor].
      destruct h; [done|]. by inversion Hh.
  - case_match; eexists _, _; split; done.
Qed.

Lemma settle_chart (p : Pending) (r : ServiceReply) (cur s' : State) :
  (length (pending_history p) <= 20)%nat →
  Forall sample_ok (pending_history p) →
  stats_ok cur →
  Forall sample_ok (history cur) →
  newest_is (stability (stats cur)) (history cur) →
  settle p r cur = Some s' →
  stats_ok s' ∧ Forall sample_ok (history s')
  ∧ newest_is (stability (stats s')) (history s').
Proof.
  intros Hlen Hp Hstats Hh Hnew Hs.
  destruct p, r; cbn in Hs; simplify_eq; cbn in Hlen, Hp.
  - by destruct (generateDeepDive r).
  - by destruct (generateConceptChallenge r).
  - destruct (evaluateChallenge r) as [res|]; [|done].
    unfold submitSyncChallenge_settled. cbv zeta.
    destruct (cr_passed res).
    + set (cur' := setConcepts _ _).
      destruct (updateStability_chart history_snap 10 cur' Hlen Hp Hstats)
        as ((Hs1 & Hs2 & Hs3) & Hh' & Hn').
      split; [|split; [exact Hh'|exact Hn']].
      split; [exact Hs1|]. split; [exact Hs2|].
      change (0 <= syncedNodes (stats (updateStability history_snap 10 cur')) + 1).
      lia.
    + by apply (updateStability_chart history_snap (-5)).
  - destruct (evaluateSocraticAnswer r) as [ev|]; cbn; [|done].
    by apply updateStability_chart.
Qed.

Lemma chart_start (props : SessionProps) : chart_ok (start props).
Proof.
  split; [|split; [|split]]; cbn.
  - unfold stats_ok. cbn. lia.
  - constructor; [|constructor]. split; cbn; lia.
  - by exists [], {| h_time := 0; h_stability := 50 |}.
  - constructor.
Qed.

Lemma chart_launch (r : State * option Pending) (c : Config) :
  chart_ok c →
  stats r.1 = stats (st c) →
  history r.1 = history (st c) →
  (∀ p, r.2 = Some p → pending_history p = history (st c) ∨ pending_history p = []) →
  chart_ok (launch r c).
Proof.
  intros (Hstats & Hh & Hnew & Hp) Hs Hhist Hpend.
  destruct r as [s [p|]]; cbn in *; unfold chart_ok, stats_ok in *; cbn;
    rewrite Hs, Hhist; (split; [done|]); (split; [done|]); (split; [done|]);
    [|done].
  apply Forall_app; split; [done|]. constructor; [|constructor].
  destruct (Hpend p eq_refl) as [-> | ->]; [done|constructor].
Qed.

Lemma chart_step (props : SessionProps) (c : Config) (e : Event) :
  history_bounded c → chart_ok c → chart_ok (step props c e).
Proof.
  intros [Hlen Hlens] Hc. pose proof Hc as (Hstats & Hh & Hnew & Hp).
  destruct e; cbn [step]; try exact Hc.
  - apply chart_launch; [done|..]; unfold fetchDeepDive;
      repeat case_match; cbn; intros; simplify_eq; cbn; auto.
  - apply chart_launch; [done|..]; unfold initSyncProtocol;
      repeat case_match; cbn; intros; simplify_eq; cbn; auto.
  - apply chart_launch; [done|..]; unfold submitSyncChallenge;
      repeat case_match; cbn; intros; simplify_eq; cbn; auto.
  - by destruct (feedback (st c)).
  - destruct (currentQ props (st c)) as [q|] eqn:Hq; [|done].
    case_bool_decide.
    + apply chart_launch; [done|..]; unfold handleSocraticSubmit; rewrite Hq;
        repeat case_match; cbn; intros; simplify_eq; cbn; auto.
    + unfold chart_ok. cbn [only st pending]. unfold handleChoiceSubmit.
      rewrite Hq. destruct (selectedOption (st c)); [|done].
      case_bool_decide;
        (edestruct updateStability_chart as (H1 & H2 & H3);
          [exact Hlen|exact Hh| |split; [exact H1|split; [exact H2|split; [exact H3|done]]]]);
        exact Hstats.
  - unfold nextQuestion. by case_match.
  - destruct (pending c !! i) as [p|] eqn:Hi; [|done].
    destruct (settle p r (st c)) as [s'|] eqn:Hset; [|done].
    destruct (settle_chart p r (st c) s') as (H1 & H2 & H3); try done.
    + by eapply Forall_lookup_1 in Hlens.
    + by eapply Forall_lookup_1 in Hp.
    + split; [done|]. split; [done|]. split; [done|]. by apply Forall_delete.
Qed.

Lemma chart_run (props : SessionProps) (es : list Event) (c : Config) :
  history_bounded c → chart_ok c →
  history_bounded (run props c es) ∧ chart_ok (run props c es).
Proof.
  revert c. induction es as [|e es IH]; intros c Hb Hc; [done|].
  cbn. apply IH; [by apply history_bounded_step|by apply chart_step].
Qed.

(** X1: whatever happens in a session, the stability stays between 0 and
    100, the streak and the count of synced nodes stay non-negative, and
    every sample of the history shows a stability between 0 and 100 at a
    position between 0 and 20. *)
Theorem X1_stats_and_samples_in_range (props : SessionProps) (es : list Event) :
  let s := st (run props (start props) es) in
  0 <= stability (stats s) <= 100
  ∧ 0 <= streak (stats s)
  ∧ 0 <= syncedNodes (stats s)
  ∧ Forall (λ x, 0 <= h_stability x <= 100 ∧ 0 <= h_time x <= 20) (history s).
Proof.
  cbv zeta.
  destruct (chart_run props es (start props)
              (history_bounded_start props) (chart_start props))
    as (_ & (H1 & H2 & H3) & Hh & _).
  done.
Qed.

(** X2: the history is never empty, and its newest sample always shows the
    current stability, also after a response that arrived late. *)
Theorem X2_newest_sample_is_current (props : SessionProps) (es : list Event) :
  let s := st (run props (start props) es) in
  ∃ front y, history s = front ++ [y] ∧ h_stability y = stability (stats s).
Proof.
  cbv zeta.
  destruct (chart_run props es (start props)
              (history_bounded_start props) (chart_start props))
    as (_ & _ & _ & Hnew & _).
  exact Hnew.
Qed.


Lemma Exists_delete_other {A} (P : A → Prop) (l : list A) (i : nat) (q : A) :
  Exists P l → l !! i = Some q → ¬ P q → Exists P (delete i l).
Proof.
  intros HE. revert i. induction HE as [x l Hx | x l HE IH]; intros [|i] Hi Hq;
    simplify_eq/=.
  - done.
  - by apply Exists_cons_hd.
  - done.
  - apply Exists_cons_tl. by apply IH.
Qed.

Lemma spinners_start (props : SessionProps) : spinners_backed (start props).
Proof. by repeat split. Qed.

Lemma spinners_step (props : SessionProps) (c : Config) (e : Event) :
  spinners_backed c → spinners_backed (step props c e).
Proof.
  intros Hc. pose proof Hc as (Hd & Hch & Hev).
  destruct e; cbn [step]; try exact Hc.
  - unfold fetchDeepDive. repeat case_match; try exact Hc.
    repeat split; cbn; intros; apply Exists_app;
      first [left; by auto | right; by constructor].
  - unfold initSyncProtocol. repeat case_match; try exact Hc.
    repeat split; cbn; intros; apply Exists_app;
      first [left; by auto | right; by constructor].
  - unfold submitSyncChallenge. repeat case_match; try exact Hc.
    repeat split; cbn; intros; apply Exists_app;
      first [left; by auto | right; by constructor].
  - by destruct (feedback (st c)).
  - destruct (currentQ props (st c)) as [q|] eqn:Hq; [|done].
    case_bool_decide.
    + unfold handleSocraticSubmit. rewrite Hq. repeat case_match; try exact Hc.
      repeat split; cbn; intros; apply Exists_app;
        first [left; by auto | right; by constructor].
    + unfold handleChoiceSubmit. rewrite Hq. repeat case_match; exact Hc.
  - unfold nextQuestion. by case_match.
  - destruct (pending c !! i) as [p|] eqn:Hi; [|done].
    destruct (settle p r (st c)) as [s'|] eqn:Hset; [|done].
    destruct p, r; cbn in Hset; simplify_eq.
    + destruct (generateDeepDive r); repeat split; cbn; intros; try done;
        eapply Exists_delete_other; eauto.
    + destruct (generateConceptChallenge r); repeat split; cbn; intros; try done;
        eapply Exists_delete_other; eauto.
    + destruct (evaluateChallenge r) as [res|]; [destruct (cr_passed res) eqn:Hpass|];
        unfold submitSyncChallenge_settled; cbv zeta; rewrite ?Hpass;
        repeat split; cbn; intros; try done;
        eapply Exists_delete_other; eauto.
    + destruct (evaluateSocraticAnswer r); repeat split; cbn; intros; try done;
        eapply Exists_delete_other; eauto.
Qed.

Lemma spinners_run (props : SessionProps) (es : list Event) (c : Config) :
  spinners_backed c → spinners_backed (run props c es).
Proof.
  revert c. induction es as [|e es IH]; intros c Hc; [done|].
  cbn. apply IH. by apply spinners_step.
Qed.

(** X3: a loading flag is set only while a call that will clear it is in
    flight: [loadingDeepDive] needs a deep-dive call, [loadingChallenge] a
    challenge generation or evaluation, [isEvaluating] an evaluation of an
    open answer.  With no call in flight no flag is set. *)
Theorem X3_loading_flags_have_a_call (props : SessionProps) (es : list Event) :
  let c := run props (start props) es in
  (loadingDeepDive (st c) = true →
     Exists (λ p, is_pending_deep_dive p = true) (pending c))
  ∧ (loadingChallenge (st c) = true →
       Exists (λ p, is_pending_challenge p = true) (pending c))
  ∧ (isEvaluating (st c) = true →
       Exists (λ p, is_pending_socratic p = true) (pending c))
  ∧ (pending c = [] →
       loadingDeepDive (st c) = false ∧ loadingChallenge (st c) = false
       ∧ isEvaluating (st c) = false).
Proof.
  cbv zeta.
  destruct (spinners_run props es (start props) (spinners_start props))
    as (Hd & Hch & Hev).
  split; [done|]. split; [done|]. split; [done|].
  intros Hnil. rewrite Hnil in *.
  repeat split; apply not_true_is_false; intros Ht.
  - by apply Hd, Exists_nil in Ht.
  - by apply Hch, Exists_nil in Ht.
  - by apply Hev, Exists_nil in Ht.
Qed.


Lemma quiz_step (props : SessionProps) (c : Config) (e : Event) :
  quiz_ok props (st c) →
  quiz_ok props (st (step props c e))
  ∧ (quizComplete (st c) = true →
     quizComplete (st (step props c e)) = true
     ∧ currentQIndex (st (step props c e)) = currentQIndex (st c)).
Proof.
  intros Hc. pose proof Hc as (Hi & Hq).
  destruct e; cbn [step]; try (by split).
  - unfold fetchDeepDive. by repeat case_match.
  - unfold initSyncProtocol. by repeat case_match.
  - unfold submitSyncChallenge. by repeat case_match.
  - by destruct (feedback (st c)).
  - unfold handleSocraticSubmit, handleChoiceSubmit. by repeat case_match.
  - cbn [only st]. unfold nextQuestion.
    destruct (Z.ltb_spec (Z.of_nat (currentQIndex (st c)))
                (Z.of_nat (length (questions (data props))) - 1)) as [Hlt|Hge].
    + split; [split|].
      * left. cbn. lia.
      * cbn. intros Hqc. destruct (Hq Hqc) as [Hlast | Hnil]; [lia|].
        rewrite Hnil in Hlt. cbn in Hlt. lia.
      * cbn. intros Hqc. destruct (Hq Hqc) as [Hlast | Hnil]; [lia|].
        rewrite Hnil in Hlt. cbn in Hlt. lia.
    + split; [split|]; cbn; [done| |done].
      intros _. destruct Hi as [Hin | [Hnil _]]; [left; lia|by right].
  - destruct (pending c !! i) as [p|] eqn:Hp; [|done].
    destruct (settle p r (st c)) as [s'|] eqn:Hset; [|done].
    destruct p, r; cbn in Hset; simplify_eq; cbn [st].
    + by destruct (generateDeepDive r).
    + by destruct (generateConceptChallenge r).
    + destruct (evaluateChallenge r) as [res|]; [|done].
      unfold submitSyncChallenge_settled. cbv zeta. by destruct (cr_passed res).
    + by destruct (evaluateSocraticAnswer r).
Qed.

Lemma quiz_start (props : SessionProps) : quiz_ok props (init props).
Proof.
  split; [|done]. unfold index_ok. cbn.
  destruct (questions (data props)); [by right|left; cbn; lia].
Qed.

Lemma quiz_run (props : SessionProps) (es : list Event) (c : Config) :
  quiz_ok props (st c) →
  quiz_ok props (st (run props c es))
  ∧ (quizComplete (st c) = true →
     quizComplete (st (run props c es)) = true
     ∧ currentQIndex (st (run props c es)) = currentQIndex (st c)).
Proof.
  revert c. induction es as [|e es IH]; intros c Hc; [done|].
  cbn. destruct (quiz_step props c e Hc) as [Hstep Hsticky].
  destruct (IH _ Hstep) as [Hrun Hsticky']. split; [done|].
  intros Hqc. destruct (Hsticky Hqc) as [Hqc' Hidx].
  destruct (Hsticky' Hqc') as [Hqc'' Hidx']. split; [done|].
  etrans; [exact Hidx'|exact Hidx].
Qed.

(** X4: in a session that has questions the question index never runs off
    the end: there is a current question after every sequence of events. *)
Theorem X4_current_question_exists (props : SessionProps) (es : list Event) :
  questions (data props) ≠ [] →
  let s := st (run props (start props) es) in
  (currentQIndex s < length (questions (data props)))%nat
  ∧ is_Some (currentQ props s).
Proof.
  intros Hne. cbv zeta.
  destruct (quiz_run props es (start props) (quiz_start props)) as [[Hi _] _].
  destruct Hi as [Hlt | [Hnil _]]; [|done].
  split; [done|]. unfold currentQ. by apply lookup_lt_is_Some.
Qed.

Lemma X4_current_question_exists_witness :
  let es := [ShowSimulation; SelectOption 1; SubmitAnswer; Continue; Continue;
             Continue] in
  let s := st (run Fixtures.small_props (start Fixtures.small_props) es) in
  (currentQIndex s < 2)%nat ∧ is_Some (currentQ Fixtures.small_props s).
Proof.
  apply (X4_current_question_exists Fixtures.small_props
           [ShowSimulation; SelectOption 1; SubmitAnswer; Continue; Continue;
            Continue]).
  discriminate.
Defined.

(** X5: the quiz is complete only on the last question, and once it is
    complete no event clears the flag or moves the index. *)
Theorem X5_quiz_complete_is_final (props : SessionProps) (es es' : list Event) :
  let c := run props (start props) es in
  let c' := run props c es' in
  quizComplete (st c) = true →
  ((currentQIndex (st c) + 1)%nat = length (questions (data props))
   ∨ questions (data props) = [])
  ∧ quizComplete (st c') = true
  ∧ currentQIndex (st c') = currentQIndex (st c).
Proof.
  cbv zeta. intros Hqc.
  destruct (quiz_run props es (start props) (quiz_start props)) as [Hok _].
  split; [by apply Hok|].
  by apply (quiz_run props es' _ Hok).
Qed.

Lemma X5_quiz_complete_is_final_witness :
  let props := Fixtures.small_props in
  let es := [ShowSimulation; Continue; Continue] in
  let es' := [Continue; ShowDataCore; SelectOption 0] in
  let c := run props (start props) es in
  let c' := run props c es' in
  ((currentQIndex (st c) + 1)%nat = length (questions (data props))
   ∨ questions (data props) = [])
  ∧ quizComplete (st c') = true
  ∧ currentQIndex (st c') = currentQIndex (st c).
Proof.
  apply (X5_quiz_complete_is_final Fixtures.small_props
           [ShowSimulation; Continue; Continue]
           [Continue; ShowDataCore; SelectOption 0]).
  reflexivity.
Defined.


Lemma unmaster_master_if (ac : StudyConcept) (l : list StudyConcept) :
  unmaster <$> ((λ k, if bool_decide (c_id k = c_id ac) then master k else k) <$> l)
  = unmaster <$> l.
Proof.
  rewrite <- list_fmap_compose. apply list_fmap_ext. intros _ k _. cbn.
  by case_bool_decide.
Qed.

Lemma step_cards (props : SessionProps) (c : Config) (e : Event) :
  unmaster <$> concepts (st (step props c e)) = unmaster <$> concepts (st c).
Proof.
  destruct (step_concepts props c e) as [-> | (j & ac & q & a & h & res & _ & _ & _ & ->)];
    [done|apply unmaster_master_if].
Qed.

(** X6: a session never adds, drops, reorders or rewrites a concept: apart
    from the mastered flags the concept list is the one the session started
    with. *)
Theorem X6_concept_cards_are_fixed (props : SessionProps) (es : list Event) :
  let s := st (run props (start props) es) in
  unmaster <$> concepts s = unmaster <$> Types.concepts (data props)
  ∧ length (concepts s) = length (Types.concepts (data props))
  ∧ (c_id <$> concepts s) = (c_id <$> Types.concepts (data props)).
Proof.
  cbv zeta.
  assert (∀ c, unmaster <$> concepts (st (run props c es))
               = unmaster <$> concepts (st c)) as Hrun.
  { induction es as [|e es IH]; intros c; [done|].
    cbn. unfold run in IH. rewrite IH. apply step_cards. }
  specialize (Hrun (start props)). cbn [start st init concepts] in Hrun.
  split; [exact Hrun|]. split.
  - apply (f_equal length) in Hrun. by rewrite !length_fmap in Hrun.
  - apply (f_equal (fmap c_id)) in Hrun.
    rewrite <- !list_fmap_compose in Hrun. exact Hrun.
Qed.

Lemma activeConcept_known (s : State) (ac : StudyConcept) :
  activeConcept s = Some ac → c_id ac ∈ c_id <$> concepts s.
Proof.
  unfold activeConcept. destruct (activeConceptId s); [|done].
  intros Hf. apply List.find_some in Hf as [Hin _].
  apply list_elem_of_fmap. exists ac. split; [done|]. by apply list_elem_of_In.
Qed.

Lemma ids_launch (props : SessionProps) (r : State * option Pending) (c : Config) :
  ids_known props c →
  concepts r.1 = concepts (st c) →
  deepDiveData r.1 = deepDiveData (st c) →
  (∀ p ac, r.2 = Some p → pending_concept p = Some ac → activeConcept (st c) = Some ac) →
  ids_known props (launch r c).
Proof.
  intros (Hids & Hcache & Hp) Hc Hd Hac.
  destruct r as [s [p|]]; cbn in *; unfold ids_known; cbn; rewrite Hc, Hd;
    (split; [done|]); (split; [done|]); [|done].
  apply Forall_app; split; [done|]. constructor; [|constructor].
  intros ac Hpc. rewrite <- Hids. apply activeConcept_known. by eapply Hac.
Qed.

Lemma ids_step (props : SessionProps) (c : Config) (e : Event) :
  ids_known props c → ids_known props (step props c e).
Proof.
  intros Hc. pose proof Hc as (Hids & Hcache & Hp).
  assert ((c_id <$> concepts (st (step props c e)))
          = (c_id <$> Types.concepts (data props))) as Hids'.
  { rewrite <- Hids. pose proof (step_cards props c e) as Hcards.
    apply (f_equal (fmap c_id)) in Hcards.
    by rewrite <- !list_fmap_compose in Hcards. }
  destruct e; cbn [step]; try exact Hc.
  - apply ids_launch; [done|..]; unfold fetchDeepDive;
      repeat case_match; cbn; intros; by simplify_eq.
  - apply ids_launch; [done|..]; unfold initSyncProtocol;
      repeat case_match; cbn; intros; by simplify_eq.
  - apply ids_launch; [done|..]; unfold submitSyncChallenge.
    + by repeat case_match.
    + by repeat case_match.
    + destruct (activeConcept (st c)) as [ac'|]; [|done].
      repeat case_match; cbn; intros; by simplify_eq.
  - by destruct (feedback (st c)).
  - destruct (currentQ props (st c)) as [q|] eqn:Hq; [|done].
    case_bool_decide.
    + apply ids_launch; [done|..]; unfold handleSocraticSubmit; rewrite Hq;
        repeat case_match; cbn; intros; by simplify_eq.
    + split; [|split; [|done]]; cbn; unfold handleChoiceSubmit; rewrite Hq;
        by repeat case_match.
  - unfold nextQuestion. by case_match.
  - destruct (pending c !! i) as [p|] eqn:Hi; [|done].
    destruct (settle p r (st c)) as [s'|] eqn:Hset; [|done].
    split; [|split]; cbn [st pending].
    + revert Hids'. cbn [step]. by rewrite Hi, Hset.
    + intros id Hid.
      destruct (step_deepDiveData props c (Settle i r))
        as [Heq | (j & ac & d & He & Hj & Hd)]; cbn [step] in *;
        rewrite Hi, Hset in *; cbn [st] in *.
      * apply Hcache. by rewrite <- Heq.
      * rewrite Hd in Hid. rewrite lookup_insert in Hid. case_decide as Hk.
        -- subst id. eapply Forall_lookup_1 in Hp; [|exact Hj]. by apply Hp.
        -- by apply Hcache.
    + by apply Forall_delete.
Qed.

Lemma ids_start (props : SessionProps) : ids_known props (start props).
Proof.
  split; [done|]. split; [|constructor].
  intros id [v Hv]. cbn in Hv. by rewrite lookup_empty in Hv.
Qed.

(** X7: the deep-dive cache only ever holds entries for ids of concepts of
    the session. *)
Theorem X7_cache_keys_are_concept_ids (props : SessionProps) (es : list Event)
    (id : string) :
  is_Some (deepDiveData (st (run props (start props) es)) !! id) →
  id ∈ c_id <$> Types.concepts (data props).
Proof.
  assert (∀ c, ids_known props c → ids_known props (run props c es)) as Hrun.
  { induction es as [|e es IH]; intros c Hc; [done|].
    cbn. apply IH. by apply ids_step. }
  destruct (Hrun _ (ids_start props)) as (_ & Hcache & _). apply Hcache.
Qed.

Lemma X7_cache_keys_are_concept_ids_witness :
  "c1" ∈ c_id <$> Types.concepts (data Fixtures.small_props).
Proof.
  apply (X7_cache_keys_are_concept_ids Fixtures.small_props
           [SelectConcept "c1"; RequestDeepDive;
            Settle 0 (DeepDiveReply (Json Fixtures.dive_1))] "c1").
  vm_compute. eexists. reflexivity.
Defined.


(** X8: when the evaluation of a sync answer returns, the feedback shows its
    verdict and the loading flag is cleared; a passed answer masters every
    concept that has the id of the submitted concept, adds one to the synced
    nodes and to the streak and applies the delta +10; a failed answer leaves
    the concepts and the synced nodes as they are, resets the streak and
    applies the delta -5. *)
Theorem X8_sync_evaluation_outcome (ac : StudyConcept) (q a : string)
    (h : list Sample) (res : ChallengeResult) (cur : State) :
  ∃ s',
    settle (PendingEvaluateChallenge ac q a h) (EvaluationReply (Json res)) cur
    = Some s'
    ∧ challengeFeedback s'
      = Some {| cf_passed := cr_passed res; cf_msg := cr_feedback res |}
    ∧ loadingChallenge s' = false
    ∧ (if cr_passed res
       then concepts s'
            = (λ k, if bool_decide (c_id k = c_id ac) then master k else k)
                <$> concepts cur
            ∧ stats s'
              = {| syncedNodes := syncedNodes (stats cur) + 1;
                   stability := Spec.clamp (stability (stats cur) + 10) 0 100;
                   streak := streak (stats cur) + 1 |}
       else concepts s' = concepts cur
            ∧ stats s'
              = {| syncedNodes := syncedNodes (stats cur);
                   stability := Spec.clamp (stability (stats cur) - 5) 0 100;
                   streak := 0 |}).
Proof.
  eexists. split; [reflexivity|].
  cbn [evaluateChallenge]. unfold submitSyncChallenge_settled. cbv zeta.
  destruct (cr_passed res); cbn; rewrite max_min_clamp; done.
Qed.


End SessionRuns.

(** ** Strings, request parts and the ingest flow *)

Section Requests.

Lemma app_String (a : Ascii.ascii) (s t : string) :
  String a s +:+ t = String a (s +:+ t).
Proof. reflexivity. Qed.

Lemma app_empty_l (t : string) : "" +:+ t = t.
Proof. reflexivity. Qed.

Lemma app_empty_r (s : string) : s +:+ "" = s.
Proof. induction s as [|a s IH]; [done|]. by rewrite app_String, IH. Qed.

Lemma app_assoc_string (s t u : string) : (s +:+ t) +:+ u = s +:+ t +:+ u.
Proof. induction s as [|a s IH]; [done|]. by rewrite !app_String, IH. Qed.

Lemma length_app_string (s t : string) :
  String.length (s +:+ t) = (String.length s + String.length t)%nat.
Proof. induction s as [|a s IH]; [done|]. rewrite app_String. cbn. by rewrite IH. Qed.

Lemma substring_all (s : string) :
  Stdlib.Strings.String.substring 0 (String.length s) s = s.
Proof. induction s as [|a s IH]; [done|]. cbn. by rewrite IH. Qed.

Lemma substring_skip (pre s : string) (m : nat) :
  Stdlib.Strings.String.substring (String.length pre) m (pre +:+ s)
  = Stdlib.Strings.String.substring 0 m s.
Proof. induction pre as [|a pre IH]; [done|]. rewrite app_String. cbn. exact IH. Qed.

(** A string is its first [a] characters followed by the rest. *)
Lemma substring_split (s : string) (a b : nat) :
  (a + b)%nat = String.length s →
  s = Stdlib.Strings.String.substring 0 a s +:+ Stdlib.Strings.String.substring a b s.
Proof.
  revert a. induction s as [|c s IH]; intros [|a] Hab; cbn in *.
  - by destruct b.
  - done.
  - subst b. by rewrite substring_all.
  - rewrite app_String. f_equal. apply IH. lia.
Qed.

(** [endsWith] is the suffix relation. *)
Lemma endsWith_spec (s suffix : string) :
  JS.endsWith s suffix = true ↔ ∃ pre, s = pre +:+ suffix.
Proof.
  unfold JS.endsWith. split.
  - destruct (Nat.leb_spec (String.length suffix) (String.length s)) as [Hle|]; [|done].
    intros Hsub%bool_decide_eq_true.
    exists (Stdlib.Strings.String.substring 0 (String.length s - String.length suffix) s).
    pose proof (substring_split s (String.length s - String.length suffix)
                  (String.length suffix)) as Hsplit.
    rewrite Hsub in Hsplit. apply Hsplit. lia.
  - intros [pre ->]. rewrite length_app_string.
    destruct (Nat.leb_spec (String.length suffix)
                (String.length pre + String.length suffix)) as [_|]; [|lia].
    apply bool_decide_eq_true.
    replace (String.length pre + String.length suffix - String.length suffix)%nat
      with (String.length pre) by lia.
    by rewrite substring_skip, substring_all.
Qed.


(** X10: a file input that has a mime type is sent as two parts, the whole
    content inline and the instruction; every other input (pasted text, or a
    file whose mime type is missing or empty) is sent as one text part that
    holds [Context: ], then the first 30000 UTF-16 code units of the content
    (all of it when it has fewer), then an empty line and the instruction. *)
Theorem X10_getParts_shape (input : InputContext) (textPrompt : UTF16.text) :
  (∀ m, ic_type input = kind_file → ic_mimeType input = Some m →
        JS.truthy_string m = true →
        getParts input textPrompt
        = [inlineData m (ic_content input); textPart textPrompt])
  ∧ (ic_type input = kind_text ∨ JS.truthy (ic_mimeType input) = false →
     ∃ ctx rest,
       ic_content input = ctx ++ rest
       ∧ Z.of_nat (length ctx)
         = Z.min 30000 (Z.of_nat (length (ic_content input)))
       ∧ getParts input textPrompt
         = [textPart (UTF16.of_ascii "Context: " ++ ctx ++ [10; 10]%N
                      ++ textPrompt)]).
Proof.
  split.
  - intros m Hty Hm Ht. unfold getParts. by rewrite Hty, Hm, Ht.
  - intros Hcase.
    exists (take CONTEXT_BUDGET (ic_content input)),
           (drop CONTEXT_BUDGET (ic_content input)).
    split; [by rewrite take_drop|]. split.
    + rewrite length_take. unfold CONTEXT_BUDGET. lia.
    + unfold getParts, contextPart.
      destruct Hcase as [-> | Hm]; [done|].
      destruct (ic_type input); [done|].
      destruct (ic_mimeType input) as [m|]; [|done].
      cbn in Hm. by rewrite Hm.
Qed.

(** The cut counts code units, not characters: of a surrogate pair that
    straddles the 30000th code unit only the first half is sent. *)
Lemma cut_splits_a_surrogate_pair (pre textPrompt : UTF16.text) (hi lo : N) :
  Z.of_nat (length pre) = 29999 →
  getParts {| ic_type := kind_text; ic_content := pre ++ [hi; lo];
              ic_mimeType := None; ic_fileName := None |} textPrompt
  = [textPart (UTF16.of_ascii "Context: " ++ (pre ++ [hi]) ++ [10; 10]%N
               ++ textPrompt)].
Proof.
  intros Hlen. unfold getParts, contextPart. cbn [ic_type ic_content].
  replace CONTEXT_BUDGET with (length pre + 1)%nat by (unfold CONTEXT_BUDGET; lia).
  by rewrite take_app_add'.
Qed.

End Requests.

Section IngestRuns.
Import Ingest IngestFlow.

(** X11: which branch [handleFile] takes.  A file is read as text exactly
    when its type is [text/plain] or its name ends in [.md] or [.txt], also
    when its type is [application/pdf]; the loaded PDF is then dropped at
    once.  It is read as a data URL exactly when it is not read as text and
    its type is [application/pdf]; the loaded PDF then stays until the read
    ends.  In both cases the pasted text is cleared before the read ends. *)
Theorem X11_handleFile_branches (f : File) (s : State) :
  let as_text :=
    file_type f = "text/plain"
    ∨ (∃ pre, file_name f = pre +:+ ".md")
    ∨ (∃ pre, file_name f = pre +:+ ".txt") in
  ((handleFile f s).2 = readAsText f ↔ as_text)
  ∧ ((handleFile f s).2 = readAsDataURL f
     ↔ ¬ as_text ∧ file_type f = "application/pdf")
  ∧ (as_text →
     (handleFile f s).1
     = {| text := []; dragActive := dragActive s; loadedFile := None |})
  ∧ ((handleFile f s).2 = readAsDataURL f →
     (handleFile f s).1
     = {| text := []; dragActive := dragActive s; loadedFile := loadedFile s |}).
Proof.
  cbv zeta.
  assert (is_text_file f = true
          ↔ file_type f = "text/plain"
            ∨ (∃ pre, file_name f = pre +:+ ".md")
            ∨ (∃ pre, file_name f = pre +:+ ".txt")) as Htext.
  { unfold is_text_file. rewrite !orb_true_iff, bool_decide_eq_true.
    rewrite !endsWith_spec. tauto. }
  unfold handleFile, is_pdf_file.
  destruct (is_text_file f) eqn:Ht.
  - cbn. repeat split; try done; tauto.
  - assert (¬ (file_type f = "text/plain"
               ∨ (∃ pre, file_name f = pre +:+ ".md")
               ∨ (∃ pre, file_name f = pre +:+ ".txt"))) as Hnot.
    { intros H%Htext. done. }
    case_bool_decide as Hpdf; cbn; repeat split; try done; try tauto.
Qed.

Lemma comma_free_app (s t : list N) :
  comma_free (s ++ t) = comma_free s && comma_free t.
Proof.
  induction s as [|u s IH]; [done|]. cbn. rewrite IH. by rewrite andb_assoc.
Qed.

Lemma until_comma_free (s : list N) : comma_free s = true → until_comma s = s.
Proof.
  induction s as [|u s IH]; [done|]. cbn. intros [Hu Hs]%andb_true_iff.
  apply negb_true_iff in Hu. rewrite Hu. by rewrite IH.
Qed.

(** [split(',')[1]] of a prefix, a comma and a payload is the payload. *)
Lemma split_comma_payload (pre payload : list N) :
  comma_free pre = true → comma_free payload = true →
  split_comma_1 (pre ++ COMMA :: payload) = Some payload.
Proof.
  intros Hpre Hpay. induction pre as [|u pre IH].
  - cbn [app split_comma_1]. rewrite bool_decide_eq_true_2 by done.
    by rewrite until_comma_free.
  - cbn in Hpre. apply andb_true_iff in Hpre as [Hu Hpre].
    apply negb_true_iff in Hu. cbn. rewrite Hu. by apply IH.
Qed.

(** X12: the payload of a data URL survives the load.  When the reader of a
    PDF delivers [data:<mime>;base64,<payload>] (no comma in the mime type
    and the payload, as in base64), the loaded file holds the name and type
    of the file and exactly the payload, the text is untouched, and starting
    passes a file input with that payload and the type of the file. *)
Theorem X12_data_url_round_trip (f : File) (mime payload : UTF16.text)
    (cur : State) :
  comma_free mime = true →
  comma_free payload = true →
  let url := UTF16.of_ascii "data:" ++ mime ++ UTF16.of_ascii ";base64"
             ++ UTF16.of_ascii "," ++ payload in
  let s' := pdf_onload f (Some url) cur in
  loadedFile s'
  = Some {| lf_name := file_name f; lf_type := file_type f;
            lf_data := Some payload |}
  ∧ text s' = text cur
  ∧ isReady s' = true
  ∧ handleStart s'
    = Started {| ic_type := kind_file; ic_content := payload;
                 ic_mimeType := Some (file_type f);
                 ic_fileName := Some (file_name f) |}.
Proof.
  intros Hmime Hpay. cbv zeta.
  assert (split_comma_1 (UTF16.of_ascii "data:" ++ mime ++ UTF16.of_ascii ";base64"
                         ++ UTF16.of_ascii "," ++ payload)
          = Some payload) as Hsplit.
  { change (UTF16.of_ascii "," ++ payload) with (COMMA :: payload).
    rewrite 2!(assoc_L (++)).
    apply split_comma_payload; [|done].
    by rewrite !comma_free_app, Hmime. }
  unfold pdf_onload.
  change (UTF16.truthy (UTF16.of_ascii "data:" ++ mime ++ UTF16.of_ascii ";base64"
                        ++ UTF16.of_ascii "," ++ payload)) with true.
  unfold handleStart, isReady. cbn [loadedFile setLoadedFile lf_data text].
  rewrite Hsplit. split; [done|]. split; [done|]. split; [|done].
  by rewrite orb_true_r.
Qed.

Lemma X12_data_url_round_trip_witness :
  let f := {| file_name := "paper.pdf"; file_type := "application/pdf" |} in
  let s' := pdf_onload f
              (Some (UTF16.of_ascii "data:application/pdf;base64,JVBERi0=")) init in
  loadedFile s'
  = Some {| lf_name := "paper.pdf"; lf_type := "application/pdf";
            lf_data := Some (UTF16.of_ascii "JVBERi0=") |}
  ∧ text s' = []
  ∧ isReady s' = true
  ∧ handleStart s'
    = Started {| ic_type := kind_file; ic_content := UTF16.of_ascii "JVBERi0=";
                 ic_mimeType := Some "application/pdf";
                 ic_fileName := Some "paper.pdf" |}.
Proof.
  exact (X12_data_url_round_trip
           {| file_name := "paper.pdf"; file_type := "application/pdf" |}
           (UTF16.of_ascii "application/pdf") (UTF16.of_ascii "JVBERi0=")
           init eq_refl eq_refl).
Defined.


(** What [handleStart] does in each state, against [isReady]. *)
Lemma start_gating (s : State) :
  match handleStart s with
  | NotStarted =>
      isReady s = false ∧ loadedFile s = None
      ∧ (length (text s) <= 50)%nat
  | Started input =>
      isReady s = true
      ∧ ((loadedFile s = None ∧ (50 < length (text s))%nat
          ∧ input = {| ic_type := kind_text; ic_content := text s;
                       ic_mimeType := None; ic_fileName := None |})
         ∨ (∃ lf, loadedFile s = Some lf ∧ lf_data lf = Some (ic_content input)
                  ∧ ic_type input = kind_file
                  ∧ ic_mimeType input = Some (lf_type lf)
                  ∧ ic_fileName input = Some (lf_name lf)))
  | StartedWithoutContent mime name =>
      isReady s = true
      ∧ ∃ lf, loadedFile s = Some lf ∧ lf_data lf = None
              ∧ lf_type lf = mime ∧ lf_name lf = name
  end.
Proof.
  unfold handleStart, isReady.
  destruct (loadedFile s) as [lf|] eqn:Hlf.
  - destruct (lf_data lf) as [d|] eqn:Hd.
    + split; [by rewrite orb_true_r|]. right. by exists lf.
    + split; [by rewrite orb_true_r|]. by exists lf.
  - destruct (Nat.ltb_spec 50 (length (text s))) as [Hlt|Hle].
    + split; [done|]. by left.
    + split; [done|]. split; [done|lia].
Qed.

(** X13: the start button is enabled exactly when [handleStart] starts.  With
    a loaded file it starts with the file whatever the text holds; without
    one it starts with the whole text when that has more than 50 UTF-16 code
    units and does nothing at 50 or fewer. *)
Theorem X13_start_gating (s : State) :
  match handleStart s with
  | NotStarted =>
      isReady s = false ∧ loadedFile s = None
      ∧ (length (text s) <= 50)%nat
  | Started input =>
      isReady s = true
      ∧ ((loadedFile s = None ∧ (50 < length (text s))%nat
          ∧ input = {| ic_type := kind_text; ic_content := text s;
                       ic_mimeType := None; ic_fileName := None |})
         ∨ (∃ lf, loadedFile s = Some lf ∧ lf_data lf = Some (ic_content input)
                  ∧ ic_type input = kind_file
                  ∧ ic_mimeType input = Some (lf_type lf)
                  ∧ ic_fileName input = Some (lf_name lf)))
  | StartedWithoutContent mime name =>
      isReady s = true
      ∧ ∃ lf, loadedFile s = Some lf ∧ lf_data lf = None
              ∧ lf_type lf = mime ∧ lf_name lf = name
  end.
Proof. exact (start_gating s). Qed.

(** [text.length] counts code units: 26 characters outside the Basic
    Multilingual Plane (a surrogate pair each) are 52 code units and start
    the session; 50 letters do not. *)
Example length_counts_code_units :
  let faces := mjoin (replicate 26 [55357; 56832]%N) in
  handleStart {| text := faces; dragActive := false; loadedFile := None |}
  = Started {| ic_type := kind_text; ic_content := faces;
               ic_mimeType := None; ic_fileName := None |}
  ∧ handleStart {| text := replicate 50 97%N; dragActive := false;
                   loadedFile := None |}
    = NotStarted.
Proof. by split. Qed.

Lemma pdf_typed_step (c : Config) (e : Event) :
  pdf_typed c → pdf_typed (step c e).
Proof.
  intros [Hlf Hr].
  assert (∀ f s, pdf_typed {| ist := s; readers := readers c |} →
                 pdf_typed {| ist := (handleFile f s).1;
                              readers := readers c ++ reader_of (Some (handleFile f s).2) |})
    as Hfile.
  { intros f s [Hlf' Hr']. unfold handleFile.
    destruct (is_text_file f); [|destruct (is_pdf_file f) eqn:Hpdf]; cbn.
    - split; [done|]. apply Forall_app; split; [done|]. by repeat constructor.
    - split; [exact Hlf'|]. apply Forall_app; split; [done|].
      constructor; [|constructor]. by apply bool_decide_eq_true in Hpdf.
    - split; [exact Hlf'|]. by rewrite app_nil_r. }
  destruct e; cbn [step].
  - split; [|done]. cbn. unfold handleDrag. by repeat case_match.
  - unfold handleDrop. destruct file0 as [f|].
    + specialize (Hfile f (setDragActive false (ist c))).
      destruct (handleFile f (setDragActive false (ist c))) as [s' eff].
      by apply Hfile.
    + split; [done|]. cbn. by rewrite app_nil_r.
  - unfold handleFileChange. destruct file0 as [f|].
    + specialize (Hfile f (ist c)).
      destruct (handleFile f (ist c)) as [s' eff]. by apply Hfile.
    + split; [done|]. cbn. by rewrite app_nil_r.
  - destruct (readers c !! i) as [r|] eqn:Hi; [|done].
    split; [|by apply Forall_delete]. cbn.
    eapply Forall_lookup_1 in Hr; [|exact Hi].
    destruct r as [|f]; cbn.
    + unfold text_onload. by repeat case_match.
    + unfold pdf_onload. repeat case_match; try done.
      cbn. by intros lf [= <-].
  - split; [done|]. by apply Forall_delete.
  - done.
  - split; [|done]. by cbn.
Qed.

(** X14: whatever is dropped, picked, typed and loaded, in any order, a file
    input that the page starts with has the mime type [application/pdf], so
    its [getParts] are the inline data with that type and the instruction:
    the content of a loaded file is never cut and never sent as text. *)
Theorem X14_started_file_goes_inline (es : list Event) (input : InputContext)
    (textPrompt : UTF16.text) :
  handleStart (ist (run start es)) = Started input →
  ic_type input = kind_file →
  ic_mimeType input = Some "application/pdf"
  ∧ GeminiService.getParts input textPrompt
    = [inlineData "application/pdf" (ic_content input); textPart textPrompt].
Proof.
  assert (∀ c, pdf_typed c → pdf_typed (run c es)) as Hrun.
  { induction es as [|e es IH]; intros c Hc; [done|].
    cbn. apply IH. by apply pdf_typed_step. }
  destruct (Hrun start) as [Hlf _]; [by split; [|constructor]|].
  intros Hstart Hkind.
  pose proof (start_gating (ist (run start es))) as Hg.
  rewrite Hstart in Hg. destruct Hg as [_ [(_ & _ & ->) | (lf & Hl & _ & _ & Hm & _)]];
    [done|].
  rewrite (Hlf lf Hl) in Hm. split; [exact Hm|].
  unfold getParts. by rewrite Hkind, Hm.
Qed.


Lemma X14_started_file_goes_inline_witness :
  let f := {| file_name := "paper.pdf"; file_type := "application/pdf" |} in
  let input := {| ic_type := kind_file; ic_content := UTF16.of_ascii "JVBERi0=";
                  ic_mimeType := Some "application/pdf";
                  ic_fileName := Some "paper.pdf" |} in
  ic_mimeType input = Some "application/pdf"
  ∧ GeminiService.getParts input (UTF16.of_ascii "Summarise.")
    = [inlineData "application/pdf" (ic_content input);
       textPart (UTF16.of_ascii "Summarise.")].
Proof.
  apply (X14_started_file_goes_inline
           [TypeText (UTF16.of_ascii "notes"); Drop (Some {| file_name := "paper.pdf";
                                            file_type := "application/pdf" |});
            Loaded 0 (Some (UTF16.of_ascii "data:application/pdf;base64,JVBERi0="))]).
  - reflexivity.
  - reflexivity.
Defined.

End IngestRuns.

(** ** The App flow *)

Section AppRuns.
Import App AppFlow.

(** X15: without a key in the environment the booted App is in the state
    INIT with the configuration error, renders neither the ingest page nor a
    session, and so offers no event at all: it never leaves INIT and never
    issues a call. *)
Theorem X15_missing_key_is_fatal (env_key : option string) (es : list Event) :
  JS.truthy env_key = false →
  all_offered (boot env_key) es = true →
  es = []
  ∧ gameState (ast (run (boot env_key) es)) = INIT
  ∧ error (ast (run (boot env_key) es)) = Some ENV_KEY_MISSING
  ∧ session_props (ast (run (boot env_key) es)) = None
  ∧ n_issued (run (boot env_key) es) = 0%nat.
Proof.
  intros Hkey Hoff.
  assert (es = []) as ->.
  { destruct es as [|e es]; [done|]. cbn in Hoff.
    apply andb_true_iff in Hoff as [He _].
    unfold boot, mount in He. rewrite Hkey in He. by destruct e. }
  unfold boot, mount. rewrite Hkey. done.
Qed.

Lemma X15_missing_key_is_fatal_witness :
  @nil Event = []
  ∧ gameState (ast (run (boot (Some "")) [])) = INIT
  ∧ error (ast (run (boot (Some "")) [])) = Some ENV_KEY_MISSING
  ∧ session_props (ast (run (boot (Some "")) [])) = None
  ∧ n_issued (run (boot (Some "")) []) = 0%nat.
Proof.
  exact (X15_missing_key_is_fatal (Some "") [] eq_refl eq_refl).
Defined.

Lemma keyed_boot (k : string) :
  JS.truthy_string k = true → keyed k (boot (Some k)) ∧ error_ok (boot (Some k)).
Proof.
  intros Hk. unfold boot, mount, keyed, error_ok. cbn. rewrite Hk. cbn.
  split; [|by left]. split; [done|]. by left.
Qed.

Lemma keyed_step (k : string) (c : Config) (e : Event) :
  keyed k c → error_ok c → offered c e = true →
  keyed k (step c e) ∧ error_ok (step c e).
Proof.
  intros [Hkey Hshape] Herr Hoff.
  destruct e as [input|i r|]; cbn in Hoff; cbn [step].
  - apply bool_decide_eq_true in Hoff.
    destruct Hshape as [[_ Hcalls] | [[Hg _] | [Hg _]]]; [|congruence..].
    split; [|by left]. split; [done|]. right. left. cbn. rewrite Hcalls.
    split; [done|]. by exists input.
  - apply bool_decide_eq_true in Hoff as [input Hi]. rewrite Hi.
    destruct Hshape as [[_ Hcalls] | [(Hg & input' & Hcalls & Hctx) | (_ & Hcalls & _)]];
      [by rewrite Hcalls in Hi| |by rewrite Hcalls in Hi].
    rewrite Hcalls in *. destruct i; [|done]. cbn [delete list_delete].
    destruct (generateGameSession r) as [d|] eqn:Hr; cbn.
    + split.
      * split; [done|]. right. right. cbn. repeat split; try done.
        exists d, input'. repeat split; try done.
        by eapply generateGameSession_unmastered.
      * unfold error_ok in *. cbn. destruct Herr as [He | [_ Hg']]; [by left|].
        congruence.
    + split; [|by right]. split; [done|]. by left.
  - apply bool_decide_eq_true in Hoff as [props Hprops].
    unfold session_props in Hprops.
    destruct Hshape as [[Hg _] | [[Hg _] | (Hg & Hcalls & _)]];
      rewrite Hg in Hprops; try done.
    split.
    + split; [done|]. by left.
    + unfold error_ok in *. cbn. destruct Herr as [He | [_ Hg']]; [by left|].
      congruence.
Qed.

Lemma keyed_run (k : string) (es : list Event) (c : Config) :
  keyed k c → error_ok c → all_offered c es = true →
  keyed k (run c es) ∧ error_ok (run c es).
Proof.
  revert c. induction es as [|e es IH]; intros c Hc Herr Hoff; [done|].
  cbn in Hoff. apply andb_true_iff in Hoff as [He Hes].
  destruct (keyed_step k c e Hc Herr He) as [Hc' Herr'].
  cbn. by apply IH.
Qed.

(** X16: an App booted with a key keeps that key and is always in one of
    three shapes: on the ingest page with no call in flight; processing, with
    exactly one generation call in flight, for the input it holds; or in an
    active session with no call in flight, holding the input and a session
    whose concepts are all unmastered, so that the session is rendered.  It
    never returns to INIT and never reaches SESSION_SUMMARY. *)
Theorem X16_app_shapes (k : string) (es : list Event) :
  JS.truthy_string k = true →
  all_offered (boot (Some k)) es = true →
  let c := run (boot (Some k)) es in
  apiKey (ast c) = k
  ∧ ((gameState (ast c) = INGESTION ∧ calls c = [])
     ∨ (gameState (ast c) = PROCESSING
        ∧ ∃ input, calls c = [input] ∧ inputContext (ast c) = Some input)
     ∨ (gameState (ast c) = SESSION_ACTIVE ∧ calls c = []
        ∧ ∃ d input,
            sessionData (ast c) = Some d ∧ inputContext (ast c) = Some input
            ∧ Forall (λ k, c_mastered k = false) (concepts d)
            ∧ session_props (ast c)
              = Some {| Session.data := d; Session.context := input;
                        Session.apiKey := k |})).
Proof.
  intros Hk Hoff. cbv zeta.
  destruct (keyed_boot k Hk) as [Hb He].
  destruct (keyed_run k es _ Hb He Hoff) as [[Hkey Hshape] _].
  split; [done|].
  destruct Hshape as [H | [H | (Hg & Hcalls & d & input & Hd & Hi & Hm)]];
    [by left|by right; left|].
  right. right. repeat split; try done. exists d, input.
  repeat split; try done. unfold session_props. by rewrite Hg, Hd, Hi, Hkey.
Qed.

Lemma X16_app_shapes_witness :
  let es := [StartProcessing Fixtures.pasted; Generated 0 NoText;
             StartProcessing Fixtures.pasted;
             Generated 0 (Json Fixtures.small_payload)] in
  let c := run (boot (Some "k")) es in
  apiKey (ast c) = "k"
  ∧ ((gameState (ast c) = INGESTION ∧ calls c = [])
     ∨ (gameState (ast c) = PROCESSING
        ∧ ∃ input, calls c = [input] ∧ inputContext (ast c) = Some input)
     ∨ (gameState (ast c) = SESSION_ACTIVE ∧ calls c = []
        ∧ ∃ d input,
            sessionData (ast c) = Some d ∧ inputContext (ast c) = Some input
            ∧ Forall (λ k, c_mastered k = false) (concepts d)
            ∧ session_props (ast c)
              = Some {| Session.data := d; Session.context := input;
                        Session.apiKey := "k" |})).
Proof.
  exact (X16_app_shapes "k"
           [StartProcessing Fixtures.pasted; Generated 0 NoText;
            StartProcessing Fixtures.pasted;
            Generated 0 (Json Fixtures.small_payload)] eq_refl eq_refl).
Defined.

(** X17: in an App booted with a key an error notice is present only on the
    ingest page and only as the notice of a failed generation; starting
    again clears it.  A failed generation issues no call of its own: the
    number of calls issued is the number of starts. *)
Theorem X17_error_notice (k : string) (es : list Event) :
  JS.truthy_string k = true →
  all_offered (boot (Some k)) es = true →
  let c := run (boot (Some k)) es in
  (error (ast c) = None
   ∨ (error (ast c) = Some CONSTRUCTION_FAILED ∧ gameState (ast c) = INGESTION))
  ∧ (∀ r, offered c (Generated 0 r) = true →
          is_fulfilled (generateGameSession r) = false →
          let c' := step c (Generated 0 r) in
          gameState (ast c') = INGESTION
          ∧ error (ast c') = Some CONSTRUCTION_FAILED
          ∧ calls c' = [] ∧ n_issued c' = n_issued c
          ∧ sessionData (ast c') = sessionData (ast c))
  ∧ (∀ input, offered c (StartProcessing input) = true →
              error (ast (step c (StartProcessing input))) = None).
Proof.
  intros Hk Hoff. cbv zeta.
  destruct (keyed_boot k Hk) as [Hb He].
  destruct (keyed_run k es _ Hb He Hoff) as [[Hkey Hshape] Herr].
  split; [exact Herr|]. split; [|done].
  intros r Hr Hfail. cbn in Hr. apply bool_decide_eq_true in Hr as [input Hi].
  cbn [step]. rewrite Hi.
  destruct (generateGameSession r); [done|]. cbn.
  destruct Hshape as [[_ Hcalls] | [(_ & input' & Hcalls & _) | (_ & Hcalls & _)]];
    rewrite Hcalls in *; done.
Qed.

Lemma X17_error_notice_witness :
  let c := run (boot (Some "k")) [StartProcessing Fixtures.pasted] in
  (error (ast c) = None
   ∨ (error (ast c) = Some CONSTRUCTION_FAILED ∧ gameState (ast c) = INGESTION))
  ∧ (∀ r, offered c (Generated 0 r) = true →
          is_fulfilled (generateGameSession r) = false →
          let c' := step c (Generated 0 r) in
          gameState (ast c') = INGESTION
          ∧ error (ast c') = Some CONSTRUCTION_FAILED
          ∧ calls c' = [] ∧ n_issued c' = n_issued c
          ∧ sessionData (ast c') = sessionData (ast c))
  ∧ (∀ input, offered c (StartProcessing input) = true →
              error (ast (step c (StartProcessing input))) = None).
Proof.
  exact (X17_error_notice "k" [StartProcessing Fixtures.pasted] eq_refl eq_refl).
Defined.

End AppRuns.

(** ** Composed steps of a session *)

Section SessionFlows.
Import Session Observe.

(** X18: moving on to the next question clears the selected option, the
    typed answer and the feedback and leaves the stats and the history as they
    are; nothing carries over, so submitting at once on the new question,
    whatever its kind, does nothing. *)
Theorem X18_continue_starts_clean (props : SessionProps) (c : Config) :
  (currentQIndex (st c) + 1 < length (questions (data props)))%nat →
  let c1 := step props c Continue in
  currentQIndex (st c1) = (currentQIndex (st c) + 1)%nat
  ∧ is_Some (currentQ props (st c1))
  ∧ selectedOption (st c1) = None
  ∧ socraticInput (st c1) = []
  ∧ feedback (st c1) = None
  ∧ quizComplete (st c1) = quizComplete (st c)
  ∧ progress (st c1) = progress (st c)
  ∧ step props c1 SubmitAnswer = c1.
Proof.
  intros Hlt. cbv zeta. cbn [step only st pending issued]. unfold nextQuestion.
  destruct (Z.ltb_spec (Z.of_nat (currentQIndex (st c)))
              (Z.of_nat (length (questions (data props))) - 1)) as [_|]; [|lia].
  cbn. split; [done|].
  assert (is_Some (questions (data props) !! (currentQIndex (st c) + 1)%nat)) as [q Hq].
  { by apply lookup_lt_is_Some. }
  unfold currentQ. cbn. rewrite Hq.
  split; [done|]. repeat (split; [done|]).
  unfold handleSocraticSubmit, handleChoiceSubmit. cbn.
  by case_bool_decide.
Qed.

Lemma X18_continue_starts_clean_witness :
  let props := Fixtures.quiz_props in
  let c := run props (start props) [ShowSimulation; SelectOption 1; SubmitAnswer] in
  let c1 := step props c Continue in
  currentQIndex (st c1) = (currentQIndex (st c) + 1)%nat
  ∧ is_Some (currentQ props (st c1))
  ∧ selectedOption (st c1) = None
  ∧ socraticInput (st c1) = []
  ∧ feedback (st c1) = None
  ∧ quizComplete (st c1) = quizComplete (st c)
  ∧ progress (st c1) = progress (st c)
  ∧ step props c1 SubmitAnswer = c1.
Proof.
  apply (X18_continue_starts_clean Fixtures.quiz_props
           (run Fixtures.quiz_props (start Fixtures.quiz_props)
              [ShowSimulation; SelectOption 1; SubmitAnswer])).
  vm_compute. lia.
Defined.

Lemma delete_last {A} (l : list A) (x : A) : delete (length l) (l ++ [x]) = l.
Proof. induction l as [|y l IH]; [done|]. cbn. f_equal. exact IH. Qed.

Lemma setLoadingDeepDive_undo (s : State) :
  loadingDeepDive s = false →
  setLoadingDeepDive false (setLoadingDeepDive true s) = s.
Proof. destruct s. cbn. by intros ->. Qed.

Lemma setLoadingChallenge_undo (s : State) :
  loadingChallenge s = false →
  setLoadingChallenge false (setLoadingChallenge true s) = s.
Proof. destruct s. cbn. by intros ->. Qed.

(** X19: a deep-dive request and a sync submission that fail leave no trace.
    When the call was issued from a state with the loading flag clear and
    its promise rejects before anything else happens, the state is again
    exactly the state before the click: the mode has not advanced, the typed
    answer and the question are still there, and the request can be
    repeated. *)
Theorem X19_failed_request_rolls_back (props : SessionProps) (c : Config)
    (e : Event) (r : ServiceReply) (p : Pending) :
  e = RequestDeepDive ∨ e = SubmitSync →
  loadingDeepDive (st c) = false →
  loadingChallenge (st c) = false →
  pending (step props c e) = pending c ++ [p] →
  answers p r = true →
  rejects r = true →
  let c' := step props (step props c e) (Settle (length (pending c)) r) in
  st c' = st c ∧ pending c' = pending c
  ∧ pending (step props c' e) = pending c ++ [p].
Proof.
  intros He Hd Hch Hp Ha Hr. cbv zeta.
  assert (pending (step props c e) !! length (pending c) = Some p) as Hi.
  { rewrite Hp. by rewrite lookup_app_r, Nat.sub_diag. }
  assert (delete (length (pending c)) (pending (step props c e)) = pending c) as Hdel.
  { rewrite Hp. apply delete_last. }
  assert (settle p r (st (step props c e)) = Some (st c)) as Hsettle.
  { destruct He as [-> | ->]; cbn [step] in Hp |- *.
    - unfold fetchDeepDive in *.
      destruct (activeConcept (st c)) as [ac|]; cbn in Hp;
        [|by apply (f_equal length) in Hp; rewrite length_app in Hp; cbn in Hp; lia].
      destruct (deepDiveData_truthy _ _); cbn in Hp;
        [by apply (f_equal length) in Hp; rewrite length_app in Hp; cbn in Hp; lia|].
      apply app_inv_head in Hp. simplify_eq. cbn [launch st].
      destruct r as [r| | |]; try done. cbn in Hr. cbn [settle].
      destruct (generateDeepDive r); [done|]. cbn [fetchDeepDive_settled].
      by rewrite setLoadingDeepDive_undo.
    - unfold submitSyncChallenge in *.
      destruct (activeConcept (st c)) as [ac|]; cbn in Hp;
        [|by apply (f_equal length) in Hp; rewrite length_app in Hp; cbn in Hp; lia].
      destruct (challengeQ (st c)) as [q|]; cbn in Hp;
        [|by apply (f_equal length) in Hp; rewrite length_app in Hp; cbn in Hp; lia].
      destruct (JS.truthy_string q && JS.truthy_string (challengeAnswer (st c)));
        cbn in Hp;
        [|by apply (f_equal length) in Hp; rewrite length_app in Hp; cbn in Hp; lia].
      apply app_inv_head in Hp. simplify_eq. cbn [launch st].
      destruct r as [| |r|]; try done. cbn in Hr. cbn [settle].
      destruct (evaluateChallenge r); [done|].
      cbn [submitSyncChallenge_settled].
      by rewrite setLoadingChallenge_undo. }
  set (c' := step props (step props c e) (Settle (length (pending c)) r)).
  assert (st c' = st c ∧ pending c' = pending c) as [Hst Hpend].
  { subst c'. cbn [step]. rewrite Hi, Hsettle. cbn [st pending]. by rewrite Hdel. }
  clearbody c'. split; [done|]. split; [done|].
  destruct He as [-> | ->]; cbn [step] in Hp |- *; rewrite Hst.
  - destruct (fetchDeepDive (st c)) as [s1 [p1|]]; cbn in Hp |- *;
      rewrite Hpend; exact Hp.
  - destruct (submitSyncChallenge (st c)) as [s1 [p1|]]; cbn in Hp |- *;
      rewrite Hpend; exact Hp.
Qed.

Lemma X19_failed_request_rolls_back_witness :
  let props := Fixtures.small_props in
  let c := run props (start props) [SelectConcept "c1"] in
  let c' := step props (step props c RequestDeepDive) (Settle 0 (DeepDiveReply NoText)) in
  st c' = st c ∧ pending c' = pending c
  ∧ pending (step props c' RequestDeepDive)
    = pending c ++ [PendingDeepDive (unmaster Fixtures.concept_a)].
Proof.
  apply (X19_failed_request_rolls_back Fixtures.small_props
           (run Fixtures.small_props (start Fixtures.small_props)
              [SelectConcept "c1"])
           RequestDeepDive (DeepDiveReply NoText)
           (PendingDeepDive (unmaster Fixtures.concept_a))).
  - by left.
  - reflexivity.
  - reflexivity.
  - vm_compute. reflexivity.
  - reflexivity.
  - reflexivity.
Defined.



End SessionFlows.
